(** * Ethiopian calendar conversions of [ethiopian_calendar.c]

    A shallow embedding of the calendar arithmetic of the PostgreSQL
    extension [pg-ethiopian-calendar] and the properties of its
    conversion routines.

    The C type [int] is modelled as a mathematical integer kept inside
    the 32-bit two's-complement range by an explicit [wrap] after every
    addition, subtraction and multiplication (PostgreSQL and the
    extensions built with its makefiles are compiled with [-fwrapv]).
    C's [/] and [%] on [int] are truncating: [Z.quot] and [Z.rem]. *)

From Stdlib Require Import ZArith Lia Bool Ascii String DecimalString.

Local Open Scope Z_scope.

(** ** Machine integers *)

Declare Scope int_scope.
Delimit Scope int_scope with int.

Module Int.

(** The values of C's [int]. *)
Definition int : Type := Z.
Bind Scope int_scope with int.

Definition INT_MIN : Z := -2147483648.
Definition INT_MAX : Z := 2147483647.

Definition in_range (x : Z) : Prop := INT_MIN <= x <= INT_MAX.

(** Reduction of a mathematical integer into the range of [int]. *)
Definition wrap (x : Z) : Z := (x + 2147483648) mod 4294967296 - 2147483648.

Definition add (x y : int) : int := wrap (x + y).
Definition sub (x y : int) : int := wrap (x - y).
Definition mul (x y : int) : int := wrap (x * y).
(** Every divisor in the program is a positive literal, so the
    quotient of an [int] is an [int] again. *)
Definition div (x y : int) : int := Z.quot x y.
Definition rem (x y : int) : int := Z.rem x y.

End Int.

(** The 64-bit integers of [Timestamp] and [TimeOffset]. *)
Module Int64.

Definition wrap (x : Z) : Z :=
  (x + 9223372036854775808) mod 18446744073709551616 - 9223372036854775808.

Definition add (x y : Z) : Z := wrap (x + y).
Definition sub (x y : Z) : Z := wrap (x - y).
Definition mul (x y : Z) : Z := wrap (x * y).

End Int64.


Infix "+" := Int.add : int_scope.
Infix "-" := Int.sub : int_scope.
Infix "*" := Int.mul : int_scope.
Infix "/" := Int.div : int_scope.
Infix "%" := Int.rem (at level 40, left associativity) : int_scope.

(** ** The conversion routines *)

Definition ETHIOPIAN_EPOCH : Z := 1724221.

(** A date as the three [int] output parameters (year, month, day). *)
Definition date : Type := (Z * Z * Z)%type.

Definition gregorian_to_jdn (year month day : Z) : Z :=
  (let a := (14 - month) / 12 in
   let y := year + 4800 - a in
   let m := month + 12 * a - 3 in
   day + (153 * m + 2) / 5 + 365 * y + y / 4 - y / 100 + y / 400 - 32045)%int.

Definition jdn_to_gregorian (jdn : Z) : date :=
  (let a := jdn + 32044 in
   let b := (4 * a + 3) / 146097 in
   let c := a - (b * 146097) / 4 in
   let d := (4 * c + 3) / 1461 in
   let e := c - (1461 * d) / 4 in
   let m := (5 * e + 2) / 153 in
   let day := e - (153 * m + 2) / 5 + 1 in
   let month := m + 3 - 12 * (m / 10) in
   let year := b * 100 + d - 4800 + (m / 10) in
   (year, month, day))%int.

(** The decomposition of a JDN into era, year of era and day of year,
    with the reassignment of [year_of_era == 4]. *)
Definition eth_year_and_doy (jdn : Z) : Z * Z :=
  (let days_since_epoch := jdn - ETHIOPIAN_EPOCH in
   let era := days_since_epoch / 1461 in
   let year_of_era := (days_since_epoch % 1461) / 365 in
   let day_of_year := (days_since_epoch % 1461) % 365 in
   let '(year_of_era, day_of_year) :=
     if year_of_era =? 4 then (3, 365) else (year_of_era, day_of_year) in
   (4 * era + year_of_era + 1, day_of_year))%int.

(** [is_leap] and [max_days] of the month-13 branch. *)
Definition is_leap (year : Z) : bool := (year % 4)%int =? 3.
Definition max_days (year : Z) : Z := if is_leap year then 6 else 5.

(** The month and day as assigned before the final comparison of the
    day with [max_days]. *)
Definition eth_month_day_raw (day_of_year : Z) : Z * Z :=
  (if day_of_year <? 360
   then (day_of_year / 30 + 1, (day_of_year % 30) + 1)
   else (13, day_of_year - 360 + 1))%int.

Definition jdn_to_ethiopian (jdn : Z) : date :=
  let '(year, day_of_year) := eth_year_and_doy jdn in
  let '(month, day) := eth_month_day_raw day_of_year in
  if day_of_year <? 360 then (year, month, day)
  else if day >? max_days year then (year, month, max_days year)
  else (year, month, day).

(** The routine with its last statement, the conditional assignment of
    [max_days] to the day, taken out. *)
Definition jdn_to_ethiopian_unclamped (jdn : Z) : date :=
  let '(year, day_of_year) := eth_year_and_doy jdn in
  let '(month, day) := eth_month_day_raw day_of_year in
  (year, month, day).

(** Whether a call of [jdn_to_ethiopian] executes the assignment of
    [max_days] to the day. *)
Definition clamp_executed (jdn : Z) : bool :=
  let '(year, day_of_year) := eth_year_and_doy jdn in
  let '(_, day) := eth_month_day_raw day_of_year in
  negb (day_of_year <? 360) && (day >? max_days year).

Definition ethiopian_to_jdn (year month day : Z) : Z :=
  (let era := (year - 1) / 4 in
   let year_of_era := (year - 1) % 4 in
   let day_of_year :=
     if month <=? 12 then (month - 1) * 30 + (day - 1) else 360 + (day - 1) in
   ETHIOPIAN_EPOCH + era * 1461 + year_of_era * 365 + day_of_year)%int.


(** ** The SQL-callable functions *)

(** [POSTGRES_EPOCH_JDATE], the JDN of 2000-01-01, with the value the
    comments of [dateadt_to_gregorian] give for it. *)
Definition POSTGRES_EPOCH_JDATE : Z := 2451545.

Definition dateadt_to_gregorian (date_val : Z) : date :=
  let jdn := Int.add date_val POSTGRES_EPOCH_JDATE in
  jdn_to_gregorian jdn.

Definition gregorian_to_dateadt (year month day : Z) : Z :=
  let jdn := gregorian_to_jdn year month day in
  Int.sub jdn POSTGRES_EPOCH_JDATE.

(** The digits of a non-negative number. *)
Definition decimal (n : Z) : string :=
  NilZero.string_of_uint (N.to_uint (Z.to_N n)).

Fixpoint zeros (n : nat) : string :=
  match n with
  | O => EmptyString
  | S k => String "0"%char (zeros k)
  end.

(** The conversion [%0<width>d] of [snprintf]: the sign of a negative
    number, then as many zeros as the field needs to reach [width]
    characters, then the digits. *)
Definition printf_0d (width : nat) (n : Z) : string :=
  let digits := decimal (Z.abs n) in
  let sign := if n <? 0 then "-"%string else EmptyString in
  (sign ++ zeros (width - String.length sign - String.length digits)
        ++ digits)%string.

(** [snprintf(result_text, sizeof(result_text), "%04d-%02d-%02d", ...)]
    into the 32 bytes of [result_text]: the first 31 characters of the
    formatted text. *)
Definition snprintf_date (eth_year eth_month eth_day : Z) : string :=
  substring 0 31
    (printf_0d 4 eth_year ++ "-" ++ printf_0d 2 eth_month ++ "-"
     ++ printf_0d 2 eth_day)%string.

(** Equality of two dates, decided. *)
Definition date_eqb (a b : date) : bool :=
  let '(y1, m1, d1) := a in
  let '(y2, m2, d2) := b in
  (y1 =? y2) && (m1 =? m2) && (d1 =? d2).

(** Whether [p] holds of 0, 1, ..., n - 1. *)
Fixpoint all_below (n : nat) (p : Z -> bool) : bool :=
  match n with
  | O => true
  | S k => p (Z.of_nat k) && all_below k p
  end.

Section Host.

(** What the extension takes from the PostgreSQL headers and library:
    the number of microseconds of a day and the function
    [timestamp_date], which gives the [DateADT] of a [Timestamp]. *)
Variable USECS_PER_DAY : Z.
Variable timestamp_date : Z -> Z.

(** [to_ethiopian_date]; a NULL argument or result is [None], the
    result text a string. *)
Definition to_ethiopian_date (arg : option Z) : option string :=
  match arg with
  | None => None
  | Some timestamp_val =>
    let date_val := timestamp_date timestamp_val in
    let '(greg_year, greg_month, greg_day) := dateadt_to_gregorian date_val in
    let jdn := gregorian_to_jdn greg_year greg_month greg_day in
    let '(eth_year, eth_month, eth_day) := jdn_to_ethiopian jdn in
    Some (snprintf_date eth_year eth_month eth_day)
  end.

(** [to_ethiopian_datetime]; a NULL argument or result is [None]. *)
Definition to_ethiopian_datetime (arg : option Z) : option Z :=
  match arg with
  | None => None
  | Some timestamp_val =>
    let date_val := timestamp_date timestamp_val in
    let time_offset :=
      Int64.sub timestamp_val (Int64.mul date_val USECS_PER_DAY) in
    let '(greg_year, greg_month, greg_day) := dateadt_to_gregorian date_val in
    let jdn := gregorian_to_jdn greg_year greg_month greg_day in
    let '(eth_year, eth_month, eth_day) := jdn_to_ethiopian jdn in
    let jdn := ethiopian_to_jdn eth_year eth_month eth_day in
    let '(greg_year, greg_month, greg_day) := jdn_to_gregorian jdn in
    let eth_date := gregorian_to_dateadt greg_year greg_month greg_day in
    Some (Int64.add (Int64.mul eth_date USECS_PER_DAY) time_offset)
  end.

(** The errors [from_ethiopian_date] reports for the parsed fields, all
    with [ERRCODE_DATETIME_VALUE_OUT_OF_RANGE], each with the values
    its message prints. *)
Inductive ereport : Type :=
| invalid_month (eth_month : Z)
| invalid_day_below_1 (eth_day : Z)
| invalid_day_of_30 (eth_day eth_month : Z)
| invalid_day_of_month_13 (eth_day max_days eth_year : Z).

(** The checks of [from_ethiopian_date] on the three parsed fields, in
    their order: the first [ereport(ERROR, ...)] reached ends the call. *)
Definition validate_fields (eth_year eth_month eth_day : Z) : option ereport :=
  if (eth_month <? 1) || (eth_month >? 13) then Some (invalid_month eth_month)
  else if eth_day <? 1 then Some (invalid_day_below_1 eth_day)
  else if eth_month <=? 12 then
    if eth_day >? 30 then Some (invalid_day_of_30 eth_day eth_month) else None
  else
    let is_leap := Int.rem eth_year 4 =? 3 in
    let max_days := if is_leap then 6 else 5 in
    if eth_day >? max_days
    then Some (invalid_day_of_month_13 eth_day max_days eth_year)
    else None.

(** [from_ethiopian_date] from the point where [sscanf] has read the
    three fields [eth_year], [eth_month], [eth_day]. *)
Definition from_ethiopian_date (eth_year eth_month eth_day : Z) : ereport + Z :=
  match validate_fields eth_year eth_month eth_day with
  | Some err => inl err
  | None =>
    let jdn := ethiopian_to_jdn eth_year eth_month eth_day in
    let '(greg_year, greg_month, greg_day) := jdn_to_gregorian jdn in
    let date_val := gregorian_to_dateadt greg_year greg_month greg_day in
    inr (Int64.mul date_val USECS_PER_DAY)
  end.

Definition rejected (r : ereport + Z) : bool :=
  match r with inl _ => true | inr _ => false end.

End Host.

(** ** The formulas with mathematical floor division

    The same formulas over unbounded integers with [Z.div] and
    [Z.modulo], which round toward negative infinity. *)

Module Floor.

Definition gregorian_to_jdn (year month day : Z) : Z :=
  let a := (14 - month) / 12 in
  let y := year + 4800 - a in
  let m := month + 12 * a - 3 in
  day + (153 * m + 2) / 5 + 365 * y + y / 4 - y / 100 + y / 400 - 32045.

Definition jdn_to_gregorian (jdn : Z) : date :=
  let a := jdn + 32044 in
  let b := (4 * a + 3) / 146097 in
  let c := a - (b * 146097) / 4 in
  let d := (4 * c + 3) / 1461 in
  let e := c - (1461 * d) / 4 in
  let m := (5 * e + 2) / 153 in
  let day := e - (153 * m + 2) / 5 + 1 in
  let month := m + 3 - 12 * (m / 10) in
  let year := b * 100 + d - 4800 + (m / 10) in
  (year, month, day).

Definition jdn_to_ethiopian (jdn : Z) : date :=
  let days_since_epoch := jdn - ETHIOPIAN_EPOCH in
  let era := days_since_epoch / 1461 in
  let remainder := days_since_epoch mod 1461 in
  let year_of_era := remainder / 365 in
  let day_of_year := remainder mod 365 in
  let '(year_of_era, day_of_year) :=
    if year_of_era =? 4 then (3, 365) else (year_of_era, day_of_year) in
  let year := 4 * era + year_of_era + 1 in
  if day_of_year <? 360
  then (year, day_of_year / 30 + 1, day_of_year mod 30 + 1)
  else (year, 13, Z.min (day_of_year - 360 + 1)
                        (if year mod 4 =? 3 then 6 else 5)).

End Floor.

(** ** Calendar dates *)

(** Leap years of the proleptic Gregorian calendar. *)
Definition gregorian_leap (year : Z) : bool :=
  (year mod 4 =? 0) && (negb (year mod 100 =? 0) || (year mod 400 =? 0)).

Definition gregorian_month_length (year month : Z) : Z :=
  if month =? 2 then (if gregorian_leap year then 29 else 28)
  else if (month =? 4) || (month =? 6) || (month =? 9) || (month =? 11)
  then 30 else 31.

(** A date of the proleptic Gregorian calendar: month 1..12 and day 1
    to the last day of that month. *)
Definition valid_gregorian (year month day : Z) : bool :=
  (1 <=? month) && (month <=? 12) &&
  (1 <=? day) && (day <=? gregorian_month_length year month).

(** The day after a date of the proleptic Gregorian calendar. *)
Definition gregorian_next_day (year month day : Z) : date :=
  if day <? gregorian_month_length year month then (year, month, day + 1)
  else if month <? 12 then (year, month + 1, 1)
  else (year + 1, 1, 1).

(** The invariants of an Ethiopian date: a positive year, month 1..13,
    day 1..30 in months 1..12, and day 1..6 in month 13 of a year with
    [year mod 4 = 3], 1..5 in month 13 of any other year. *)
Definition valid_ethiopian (year month day : Z) : bool :=
  (1 <=? year) && (1 <=? month) && (month <=? 13) && (1 <=? day) &&
  (if month <=? 12 then day <=? 30
   else day <=? (if year mod 4 =? 3 then 6 else 5)).

(** ** Arithmetic that stays in range *)

Lemma wrap_id (x : Z) : Int.in_range x -> Int.wrap x = x.
Proof.
  unfold Int.in_range, Int.INT_MIN, Int.INT_MAX, Int.wrap. intros H.
  rewrite Z.mod_small by lia. lia.
Qed.

Lemma wrap_in_range (x : Z) : Int.in_range (Int.wrap x).
Proof.
  unfold Int.in_range, Int.INT_MIN, Int.INT_MAX, Int.wrap.
  pose proof (Z.mod_pos_bound (x + 2147483648) 4294967296). lia.
Qed.

Lemma wrap_add_l (x y : Z) : Int.wrap (Int.wrap x + y) = Int.wrap (x + y).
Proof.
  unfold Int.wrap.
  replace ((x + 2147483648) mod 4294967296 - 2147483648 + y + 2147483648)
    with ((x + 2147483648) mod 4294967296 + y) by lia.
  rewrite Z.add_mod_idemp_l by lia. f_equal. f_equal. lia.
Qed.

Ltac range_solver :=
  unfold Int.in_range, Int.INT_MIN, Int.INT_MAX in *;
  Z.div_mod_to_equations; lia.

(** Rewrite one machine operation whose operands provably stay in
    range (and are non-negative, for a division) into the operation on
    mathematical integers. *)
Ltac int_step :=
  match goal with
  | |- context [Int.wrap ?x] => rewrite (wrap_id x) by range_solver
  | |- context [Z.quot ?x ?y] => rewrite (Z.quot_div_nonneg x y) by range_solver
  | |- context [Z.rem ?x ?y] => rewrite (Z.rem_mod_nonneg x y) by range_solver
  end.

(** Split a conjunction of boolean comparisons in a hypothesis into
    arithmetic facts. *)
Ltac bool_hyps :=
  repeat match goal with
  | H : _ && _ = true |- _ => apply andb_prop in H; destruct H
  | H : (_ <=? _) = true |- _ => apply Z.leb_le in H
  | H : (_ <? _) = true |- _ => apply Z.ltb_lt in H
  | H : (_ =? _) = true |- _ => apply Z.eqb_eq in H
  end.

Ltac int_ideal :=
  unfold Int.add, Int.sub, Int.mul, Int.div, Int.rem; repeat int_step.

Lemma ethiopian_to_jdn_floor (y m d : Z) :
  1 <= y <= 5870000 -> -1000 <= m <= 1000 -> -1000 <= d <= 1000 ->
  ethiopian_to_jdn y m d =
  ETHIOPIAN_EPOCH + (y - 1) / 4 * 1461 + (y - 1) mod 4 * 365
  + (if m <=? 12 then (m - 1) * 30 + (d - 1) else 360 + (d - 1)).
Proof.
  intros Hy Hm Hd. unfold ethiopian_to_jdn, ETHIOPIAN_EPOCH.
  destruct (m <=? 12); int_ideal; reflexivity.
Qed.

Lemma jdn_to_ethiopian_floor (jdn : Z) :
  ETHIOPIAN_EPOCH <= jdn <= Int.INT_MAX ->
  jdn_to_ethiopian jdn = Floor.jdn_to_ethiopian jdn.
Proof.
  intros H. unfold jdn_to_ethiopian, Floor.jdn_to_ethiopian,
    eth_year_and_doy, eth_month_day_raw, max_days, is_leap, ETHIOPIAN_EPOCH in *.
  int_ideal.
  destruct (Z.eqb_spec ((jdn - 1724221) mod 1461 / 365) 4) as [E4|E4].
  - change (365 <? 360) with false. cbv iota beta. int_ideal.
    change (365 - 360 + 1) with 6.
    destruct (_ =? 3); reflexivity.
  - destruct (Z.ltb_spec (((jdn - 1724221) mod 1461) mod 365) 360) as [L|L];
      int_ideal; [reflexivity|].
    match goal with |- context [?t =? 3] => destruct (Z.eqb_spec t 3) end.
    + destruct (Z.gtb_spec (((jdn - 1724221) mod 1461) mod 365 - 360 + 1) 6);
        f_equal; lia.
    + destruct (Z.gtb_spec (((jdn - 1724221) mod 1461) mod 365 - 360 + 1) 5);
        f_equal; lia.
Qed.

(** The year and day of year that [jdn_to_ethiopian] derives from the
    position of a day in its 1461-day cycle. *)
Lemma eth_year_and_doy_cycle (q r : Z) :
  0 <= q <= 1468692 -> 0 <= r < 1461 ->
  eth_year_and_doy (ETHIOPIAN_EPOCH + 1461 * q + r) =
  if r =? 1460 then (4 * q + 4, 365) else (4 * q + r / 365 + 1, r mod 365).
Proof.
  intros Hq Hr. unfold eth_year_and_doy, ETHIOPIAN_EPOCH.
  assert (Hsub : Int.sub (1724221 + 1461 * q + r)%Z 1724221 = r + q * 1461)
    by (int_ideal; lia).
  rewrite Hsub. unfold Int.div, Int.rem.
  rewrite (Z.quot_div_nonneg (r + q * 1461) 1461),
    (Z.rem_mod_nonneg (r + q * 1461) 1461) by lia.
  rewrite Z.div_add, Z.mod_add by lia.
  rewrite (Z.mod_small r 1461), (Z.div_small r 1461), Z.add_0_l by lia.
  rewrite (Z.quot_div_nonneg r 365), (Z.rem_mod_nonneg r 365) by lia.
  destruct (Z.eqb_spec r 1460) as [->|Hne].
  - change (1460 / 365 =? 4) with true. cbv iota beta.
    int_ideal. f_equal. lia.
  - destruct (Z.eqb_spec (r / 365) 4) as [E4|E4].
    + exfalso. Z.div_mod_to_equations. lia.
    + int_ideal. reflexivity.
Qed.

(** ** The Ethiopian converter *)

(** C9. The epoch is JDN 1724221; [jdn_to_ethiopian] maps it to
    (1, 1, 1) and [ethiopian_to_jdn] maps (1, 1, 1) to it; and Gregorian
    2015-09-11 goes through [gregorian_to_jdn] and [jdn_to_ethiopian] to
    Ethiopian (2008, 1, 1). *)
Theorem epoch_anchor_and_known_point :
  ETHIOPIAN_EPOCH = 1724221 /\
  jdn_to_ethiopian 1724221 = (1, 1, 1) /\
  ethiopian_to_jdn 1 1 1 = 1724221 /\
  jdn_to_ethiopian (gregorian_to_jdn 2015 9 11) = (2008, 1, 1).
Proof. repeat split; vm_compute; reflexivity. Qed.

(** Position of a valid Ethiopian date in its 1461-day cycle. *)
Lemma ethiopian_to_jdn_cycle (y m d : Z) :
  valid_ethiopian y m d = true -> y <= 5000000 ->
  ethiopian_to_jdn y m d =
  ETHIOPIAN_EPOCH + 1461 * ((y - 1) / 4)
  + (365 * ((y - 1) mod 4) + (30 * (if m <=? 12 then m - 1 else 12) + (d - 1))).
Proof.
  unfold valid_ethiopian. intros Hv Hy. bool_hyps.
  rewrite ethiopian_to_jdn_floor;
    [|lia|lia|destruct (m <=? 12), (y mod 4 =? 3); bool_hyps; lia].
  destruct (Z.leb_spec m 12); lia.
Qed.

(** Where the round trip through [ethiopian_to_jdn] and
    [jdn_to_ethiopian] does hold: on every valid date other than day 6
    of month 13. *)
Lemma ethiopian_round_trip_except_day_6 (y m d : Z) :
  valid_ethiopian y m d = true -> y <= 5000000 ->
  ~ (m = 13 /\ d = 6) ->
  jdn_to_ethiopian (ethiopian_to_jdn y m d) = (y, m, d).
Proof.
  intros Hv Hy Hne. rewrite ethiopian_to_jdn_cycle by assumption.
  unfold valid_ethiopian in Hv. bool_hyps.
  set (q := (y - 1) / 4). set (r := (y - 1) mod 4).
  assert (Hqr : y - 1 = 4 * q + r /\ 0 <= r < 4 /\ 0 <= q)
    by (subst q r; Z.div_mod_to_equations; lia).
  set (doy := 30 * (if m <=? 12 then m - 1 else 12) + (d - 1)).
  assert (Hdoy : 0 <= doy <= 364 /\
                 (m <= 12 -> doy = 30 * (m - 1) + (d - 1) /\ d <= 30) /\
                 (12 < m -> doy = 360 + (d - 1))).
  { subst doy. destruct (Z.leb_spec m 12).
    - bool_hyps. lia.
    - destruct (y mod 4 =? 3); bool_hyps; lia. }
  unfold jdn_to_ethiopian.
  rewrite eth_year_and_doy_cycle by lia.
  destruct (Z.eqb_spec (365 * r + doy) 1460) as [E|E]; [lia|].
  replace ((365 * r + doy) / 365) with r by (Z.div_mod_to_equations; lia).
  replace ((365 * r + doy) mod 365) with doy by (Z.div_mod_to_equations; lia).
  unfold eth_month_day_raw.
  destruct (Z.ltb_spec doy 360) as [L|L].
  - int_ideal. f_equal; [f_equal|]; Z.div_mod_to_equations; lia.
  - int_ideal. unfold max_days.
    destruct (is_leap _);
      match goal with |- context [?a >? ?b] => destruct (Z.gtb_spec a b) end;
      try lia; f_equal; try f_equal; lia.
Qed.

(** C1. Day 6 of month 13 of year 3 satisfies the invariants of an
    Ethiopian date (3 mod 4 = 3), and the round trip through
    [ethiopian_to_jdn] and [jdn_to_ethiopian] returns (4, 1, 1) for it,
    not (3, 13, 6). *)
Theorem ethiopian_round_trip_leap_day_6 :
  valid_ethiopian 3 13 6 = true /\
  ethiopian_to_jdn 3 13 6 = 1725316 /\
  jdn_to_ethiopian (ethiopian_to_jdn 3 13 6) = (4, 1, 1).
Proof. repeat split; vm_compute; reflexivity. Qed.

(** C2. At JDN 1725681, the last day of the first 1461-day cycle after
    the epoch, [jdn_to_ethiopian] computes month 13 and day 6 in year 4,
    whose maximum is 5: the assignment of [max_days] is executed, and
    the routine without it returns another date. *)
Theorem clamp_executed_at_cycle_end :
  ETHIOPIAN_EPOCH <= 1725681 /\
  eth_year_and_doy 1725681 = (4, 365) /\
  eth_month_day_raw 365 = (13, 6) /\
  max_days 4 = 5 /\
  clamp_executed 1725681 = true /\
  jdn_to_ethiopian_unclamped 1725681 = (4, 13, 6) /\
  jdn_to_ethiopian 1725681 = (4, 13, 5).
Proof. repeat split; vm_compute; solve [reflexivity | discriminate]. Qed.

(** C3. For every JDN at or after the epoch whose distance from the
    epoch is 1460 modulo 1461, [jdn_to_ethiopian] returns day 5 of
    month 13 of a year divisible by 4: neither day 6 nor a year with
    [year mod 4 = 3]. *)
Theorem cycle_end_returns_day_5 (jdn : Z) :
  ETHIOPIAN_EPOCH <= jdn <= Int.INT_MAX ->
  (jdn - ETHIOPIAN_EPOCH) mod 1461 = 1460 ->
  jdn_to_ethiopian jdn = (4 * ((jdn - ETHIOPIAN_EPOCH) / 1461) + 4, 13, 5) /\
  (4 * ((jdn - ETHIOPIAN_EPOCH) / 1461) + 4) mod 4 = 0.
Proof.
  intros Hr Hm. split.
  - set (q := (jdn - ETHIOPIAN_EPOCH) / 1461).
    assert (Hq : jdn = ETHIOPIAN_EPOCH + 1461 * q + 1460 /\ 0 <= q <= 1468692).
    { subst q. unfold ETHIOPIAN_EPOCH, Int.INT_MAX in *.
      Z.div_mod_to_equations. lia. }
    clearbody q. destruct Hq as [-> Hq]. unfold jdn_to_ethiopian.
    rewrite eth_year_and_doy_cycle by lia.
    change (1460 =? 1460) with true. cbv iota.
    change (eth_month_day_raw 365) with (13, 6). cbv iota beta.
    change (365 <? 360) with false. cbv iota.
    assert (Hl : is_leap (4 * q + 4) = false).
    { unfold is_leap, Int.rem. rewrite Z.rem_mod_nonneg by lia.
      replace ((4 * q + 4) mod 4) with 0 by (Z.div_mod_to_equations; lia).
      reflexivity. }
    unfold max_days. rewrite Hl. reflexivity.
  - Z.div_mod_to_equations. lia.
Qed.

Lemma cycle_end_returns_day_5_witness :
  jdn_to_ethiopian 1725681 = (4, 13, 5) /\ 4 mod 4 = 0.
Proof.
  apply (cycle_end_returns_day_5 1725681).
  - unfold ETHIOPIAN_EPOCH, Int.INT_MAX. lia.
  - reflexivity.
Defined.

(** C7. The day after the last day of month 13 is not day 1 of month 1
    of the next year in two years of every four: after (3, 13, 6)
    [jdn_to_ethiopian] returns (4, 1, 2), and after (4, 13, 5) it returns
    (4, 13, 5) again, where the claim has (4, 1, 1) and (5, 1, 1). *)
Theorem month_13_boundary_years_3_and_4 :
  (3 mod 4 = 3 /\
   jdn_to_ethiopian (Int.add (ethiopian_to_jdn 3 13 6) 1) = (4, 1, 2)) /\
  (4 mod 4 <> 3 /\
   jdn_to_ethiopian (Int.add (ethiopian_to_jdn 4 13 5) 1) = (4, 13, 5)).
Proof. repeat split; vm_compute; solve [reflexivity | discriminate]. Qed.

(** Where the month-13 boundary does hold: after the last day of a
    year that is 1 or 2 modulo 4. *)
Lemma month_13_boundary_years_1_and_2 (y : Z) :
  1 <= y <= 5000000 -> y mod 4 = 1 \/ y mod 4 = 2 ->
  jdn_to_ethiopian (Int.add (ethiopian_to_jdn y 13 5) 1) = (y + 1, 1, 1).
Proof.
  intros Hy Hm. rewrite ethiopian_to_jdn_floor by lia.
  change (13 <=? 12) with false. cbv iota.
  set (q := (y - 1) / 4). set (r := (y - 1) mod 4).
  assert (Hqr : y - 1 = 4 * q + r /\ 0 <= r <= 1 /\ 0 <= q)
    by (subst q r; Z.div_mod_to_equations; lia).
  unfold ETHIOPIAN_EPOCH.
  replace (Int.add (1724221 + q * 1461 + r * 365 + (360 + (5 - 1)))%Z 1)
    with (ETHIOPIAN_EPOCH + 1461 * q + 365 * (r + 1))
    by (unfold ETHIOPIAN_EPOCH; int_ideal; lia).
  unfold jdn_to_ethiopian. rewrite eth_year_and_doy_cycle by lia.
  destruct (Z.eqb_spec (365 * (r + 1)) 1460); [lia|].
  replace (365 * (r + 1) / 365) with (r + 1) by (Z.div_mod_to_equations; lia).
  replace ((365 * (r + 1)) mod 365) with 0 by (Z.div_mod_to_equations; lia).
  change (eth_month_day_raw 0) with (1, 1). cbv iota beta.
  change (0 <? 360) with true. cbv iota. f_equal. f_equal. lia.
Qed.

(** C10. For every year L with [L mod 4 = 3] (and L + 1 an [int]),
    [ethiopian_to_jdn] gives day 6 of month 13 of L and day 1 of month 1
    of L + 1 the same JDN; for positive L both are valid Ethiopian
    dates, and they are different dates. *)
Theorem ethiopian_to_jdn_not_injective (L : Z) :
  Int.in_range L -> L < Int.INT_MAX -> L mod 4 = 3 ->
  ethiopian_to_jdn L 13 6 = ethiopian_to_jdn (L + 1) 1 1 /\
  (L, 13, 6) <> (L + 1, 1, 1) /\
  (0 < L -> valid_ethiopian L 13 6 = true /\
            valid_ethiopian (L + 1) 1 1 = true).
Proof.
  intros Hr Hlt Hm. split; [|split].
  - unfold ethiopian_to_jdn.
    change (13 <=? 12) with false. change (1 <=? 12) with true. cbv iota.
    assert (H1 : Int.sub L 1 = (L - 1)%Z) by (int_ideal; reflexivity).
    assert (H2 : Int.sub (L + 1)%Z 1 = L) by (int_ideal; lia).
    rewrite H1, H2.
    assert (Hq : Int.div (L - 1)%Z 4 = Int.div L 4 /\
                 Int.rem L 4 = (Int.rem (L - 1)%Z 4 + 1)%Z /\
                 (-3 <= Int.rem (L - 1)%Z 4 <= 2)%Z).
    { unfold Int.div, Int.rem. Z.to_euclidean_division_equations. lia. }
    destruct Hq as (-> & -> & Hb).
    set (A := Int.add ETHIOPIAN_EPOCH (Int.mul (Int.div L 4) 1461)).
    set (r := Int.rem (L - 1)%Z 4) in *.
    unfold Int.add, Int.sub, Int.mul.
    change (Int.wrap (6 - 1)) with 5. change (Int.wrap (360 + 5)) with 365.
    change (Int.wrap (1 - 1)) with 0. change (Int.wrap (0 * 30)) with 0.
    change (Int.wrap (0 + 0)) with 0.
    rewrite (wrap_id (r * 365)), (wrap_id ((r + 1) * 365)) by range_solver.
    rewrite !wrap_add_l. f_equal. lia.
  - intros E. injection E. lia.
  - intros Hpos. unfold valid_ethiopian.
    rewrite Hm. change (3 =? 3) with true.
    change (13 <=? 12) with false. change (1 <=? 12) with true. cbv iota.
    split; repeat (apply andb_true_intro; split); apply Z.leb_le; lia.
Qed.

Lemma ethiopian_to_jdn_not_injective_witness :
  ethiopian_to_jdn 3 13 6 = ethiopian_to_jdn (3 + 1) 1 1 /\
  (3, 13, 6) <> (3 + 1, 1, 1) /\
  (0 < 3 -> valid_ethiopian 3 13 6 = true /\
            valid_ethiopian (3 + 1) 1 1 = true).
Proof.
  apply (ethiopian_to_jdn_not_injective 3).
  - unfold Int.in_range, Int.INT_MIN, Int.INT_MAX. lia.
  - unfold Int.INT_MAX. lia.
  - reflexivity.
Defined.

(** ** The field validator *)

Lemma rejected_validate (U y m d : Z) :
  rejected (from_ethiopian_date U y m d) = true <-> validate_fields y m d <> None.
Proof.
  unfold from_ethiopian_date.
  destruct (validate_fields y m d) as [err|].
  - cbn. split; [discriminate|reflexivity].
  - destruct (jdn_to_gregorian _) as [[gy gm] gd]. cbn.
    split; [discriminate|congruence].
Qed.

Lemma validate_fields_iff (y m d : Z) :
  validate_fields y m d <> None <->
  m < 1 \/ 13 < m \/ d < 1 \/ (m <= 12 /\ 30 < d) \/
  (m = 13 /\ (if Int.rem y 4 =? 3 then 6 else 5) < d).
Proof.
  unfold validate_fields.
  destruct (Z.ltb_spec m 1); cbn [orb];
    [split; [lia|discriminate]|].
  destruct (Z.gtb_spec m 13); [split; [lia|discriminate]|].
  destruct (Z.ltb_spec d 1); [split; [lia|discriminate]|].
  destruct (Z.leb_spec m 12).
  - destruct (Z.gtb_spec d 30); [split; [lia|discriminate]|].
    split; [congruence|lia].
  - destruct (Int.rem y 4 =? 3);
      match goal with |- context [?a >? ?b] => destruct (Z.gtb_spec a b) end;
      (split; [first [congruence | lia] | first [discriminate | lia]]).
Qed.

(** C8. [from_ethiopian_date] rejects the parsed fields exactly when the
    month is outside 1..13, or the day is below 1, or the day is above 30
    in a month up to 12, or the day is above 6 (year % 4 == 3) or 5
    (otherwise) in month 13, whatever the year is. The test [year % 4 == 3]
    is C's remainder; for every year from 0 on it is [year mod 4 = 3].
    Day 6 of month 13 is accepted in year 3 and rejected in year 4. *)
Theorem field_validator_rejects_iff :
  (forall U y m d : Z,
     rejected (from_ethiopian_date U y m d) = true <->
     m < 1 \/ 13 < m \/ d < 1 \/ (m <= 12 /\ 30 < d) \/
     (m = 13 /\ (if Int.rem y 4 =? 3 then 6 else 5) < d)) /\
  (forall U y m d : Z, 0 <= y ->
     (rejected (from_ethiopian_date U y m d) = true <->
      m < 1 \/ 13 < m \/ d < 1 \/ (m <= 12 /\ 30 < d) \/
      (m = 13 /\ (if y mod 4 =? 3 then 6 else 5) < d))) /\
  (forall U : Z, rejected (from_ethiopian_date U 3 13 6) = false) /\
  (forall U : Z, from_ethiopian_date U 4 13 6 = inl (invalid_day_of_month_13 6 5 4)).
Proof.
  split; [|split; [|split]].
  - intros. rewrite rejected_validate. apply validate_fields_iff.
  - intros U y m d Hy. rewrite rejected_validate, validate_fields_iff.
    unfold Int.rem. rewrite Z.rem_mod_nonneg by lia. reflexivity.
  - intros U. reflexivity.
  - intros U. reflexivity.
Qed.

Lemma field_validator_rejects_iff_witness :
  0 <= 2016 /\
  (rejected (from_ethiopian_date 86400000000 2016 13 6) = true <->
   13 < 1 \/ 13 < 13 \/ 6 < 1 \/ (13 <= 12 /\ 30 < 6) \/
   (13 = 13 /\ (if 2016 mod 4 =? 3 then 6 else 5) < 6)).
Proof.
  split; [lia|].
  apply (proj1 (proj2 field_validator_rejects_iff) 86400000000 2016 13 6). lia.
Defined.

(** ** Truncating division *)

(** C5, as stated, fails: the divisions and remainders of the three
    routines are C's, which round toward zero, and where an operand is
    negative the results are not those of the formulas with floor
    division: for the day before the Ethiopian epoch, for 1 March of
    Gregorian year -4801, and for JDN -32045. *)
Lemma truncating_division_differs_from_floor :
  (jdn_to_ethiopian 1724220 = (1, 1, 0) /\
   Floor.jdn_to_ethiopian 1724220 = (0, 13, 5)) /\
  (gregorian_to_jdn (-4801) 3 1 = -32409 /\
   Floor.gregorian_to_jdn (-4801) 3 1 = -32410) /\
  (jdn_to_gregorian (-32045) = (-4800, 3, 0) /\
   Floor.jdn_to_gregorian (-32045) = (-4800, 2, 29)).
Proof. repeat split; vm_compute; reflexivity. Qed.

(** ** The time-preserving conversion *)

Lemma wrap64_id (x : Z) :
  -9223372036854775808 <= x <= 9223372036854775807 -> Int64.wrap x = x.
Proof.
  unfold Int64.wrap. intros H. rewrite Z.mod_small by lia. lia.
Qed.

(** C4. [to_ethiopian_datetime] moves every timestamp of Gregorian
    2016-09-10 (the date 6097 days after 2000-01-01) back by one day:
    the date becomes Ethiopian (2008, 13, 5), which [ethiopian_to_jdn]
    sends to the JDN of 2016-09-09. *)
Theorem to_ethiopian_datetime_moves_cycle_end
    (USECS_PER_DAY : Z) (timestamp_date : Z -> Z) (timestamp_val : Z) :
  0 < USECS_PER_DAY <= 86400000000 ->
  timestamp_date timestamp_val = 6097 ->
  6097 * USECS_PER_DAY <= timestamp_val < 6098 * USECS_PER_DAY ->
  to_ethiopian_datetime USECS_PER_DAY timestamp_date (Some timestamp_val)
  = Some (timestamp_val - USECS_PER_DAY) /\
  timestamp_val - USECS_PER_DAY <> timestamp_val.
Proof.
  intros HU Hd Ht. split; [|lia].
  unfold to_ethiopian_datetime. rewrite Hd.
  change (dateadt_to_gregorian 6097) with (2016, 9, 10). cbv iota beta zeta.
  change (gregorian_to_jdn 2016 9 10) with 2457642.
  change (jdn_to_ethiopian 2457642) with (2008, 13, 5). cbv iota beta.
  change (ethiopian_to_jdn 2008 13 5) with 2457641.
  change (jdn_to_gregorian 2457641) with (2016, 9, 9). cbv iota beta.
  change (gregorian_to_dateadt 2016 9 9) with 6096.
  unfold Int64.add, Int64.sub, Int64.mul.
  rewrite (wrap64_id (6097 * USECS_PER_DAY)) by lia.
  rewrite (wrap64_id (timestamp_val - _)) by lia.
  rewrite (wrap64_id (6096 * USECS_PER_DAY)) by lia.
  rewrite wrap64_id by lia. f_equal. lia.
Qed.

Lemma to_ethiopian_datetime_moves_cycle_end_witness :
  to_ethiopian_datetime 86400000000 (fun t => t / 86400000000)
    (Some 526780800000000)
  = Some (526780800000000 - 86400000000) /\
  526780800000000 - 86400000000 <> 526780800000000.
Proof.
  apply (to_ethiopian_datetime_moves_cycle_end
           86400000000 (fun t => t / 86400000000) 526780800000000).
  - lia.
  - reflexivity.
  - lia.
Defined.

(** ** The Gregorian converter *)

(** The year arithmetic of the Gregorian formulas: a day [doy] of the
    computational year [Y] (which starts on 1 March; day 365 exists when
    [Y + 1] is a leap year) is decomposed by the divisions of
    [jdn_to_gregorian] into century [Y / 100], year of century and [doy]. *)
Lemma gregorian_year_decomposition (Y doy : Z) :
  0 <= doy <= 365 ->
  (doy = 365 ->
   (Y + 1) mod 4 = 0 /\ ((Y + 1) mod 100 <> 0 \/ (Y + 1) mod 400 = 0)) ->
  let a := doy + 365 * Y + Y / 4 - Y / 100 + Y / 400 in
  let b := (4 * a + 3) / 146097 in
  let c := a - (b * 146097) / 4 in
  let d := (4 * c + 3) / 1461 in
  let e := c - (1461 * d) / 4 in
  b = Y / 100 /\ d = Y mod 100 /\ e = doy.
Proof.
  intros Hdoy Hleap.
  set (q := Y / 400). set (r := Y mod 400).
  set (c1 := r / 100). set (s := r mod 100).
  set (t := s / 4). set (u := s mod 4).
  assert (HY : Y = 400 * q + 100 * c1 + 4 * t + u /\
               0 <= c1 <= 3 /\ 0 <= t <= 24 /\ 0 <= u <= 3)
    by (subst q r c1 s t u; Z.div_mod_to_equations; lia).
  assert (H4 : Y / 4 = 100 * q + 25 * c1 + t) by (Z.div_mod_to_equations; lia).
  assert (H100 : Y / 100 = 4 * q + c1) by (Z.div_mod_to_equations; lia).
  assert (Hm100 : Y mod 100 = 4 * t + u) by (Z.div_mod_to_equations; lia).
  assert (Hl : doy = 365 -> u = 3 /\ (t = 24 -> c1 = 3)).
  { intros E. destruct (Hleap E) as [L4 L100]. clear Hleap.
    split; [Z.div_mod_to_equations; lia|].
    intros Et. destruct L100 as [L100|L400]; Z.div_mod_to_equations; lia. }
  fold q. rewrite H4, H100, Hm100.
  clearbody q c1 t u. clear r s H4 H100 Hm100 Hleap.
  destruct HY as (-> & Hc1 & Ht & Hu).
  intros a.
  assert (Ea : a = 146097 * q + 36524 * c1 + 1461 * t + 365 * u + doy)
    by (subst a; lia).
  clearbody a. subst a. intros b.
  assert (Eb : b = 4 * q + c1) by (subst b; Z.div_mod_to_equations; lia).
  clearbody b. subst b. intros c.
  assert (Ec : c = 1461 * t + 365 * u + doy)
    by (subst c; Z.div_mod_to_equations; lia).
  clearbody c. subst c. intros d.
  assert (Ed : d = 4 * t + u) by (subst d; Z.div_mod_to_equations; lia).
  clearbody d. subst d. intros e. subst e.
  repeat split; try lia. Z.div_mod_to_equations; lia.
Qed.

(** The month arithmetic: the day [doy] of the computational year on
    which a valid date falls. *)
Lemma gregorian_month_decomposition (y m d : Z) :
  valid_gregorian y m d = true ->
  let a := (14 - m) / 12 in
  let M := m + 12 * a - 3 in
  let doy := d - 1 + (153 * M + 2) / 5 in
  0 <= doy <= 365 /\
  (doy = 365 -> gregorian_leap y = true /\ m = 2) /\
  (a = 1 <-> m <= 2) /\ (a = 0 <-> 3 <= m) /\
  (5 * doy + 2) / 153 = M /\
  M / 10 = a /\ 0 <= M <= 11.
Proof.
  unfold valid_gregorian. intros Hv. bool_hyps.
  assert (Hm : m = 1 \/ m = 2 \/ m = 3 \/ m = 4 \/ m = 5 \/ m = 6 \/ m = 7 \/
               m = 8 \/ m = 9 \/ m = 10 \/ m = 11 \/ m = 12) by lia.
  unfold gregorian_month_length in *.
  repeat (destruct Hm as [Hm|Hm]; [subst m; cbn in * |-|]);
    [..|subst m; cbn in * |-]; cbv zeta;
    try (destruct (gregorian_leap y));
    (split; [Z.div_mod_to_equations; lia|];
     split; [intros E; split;
             [first [reflexivity | exfalso; Z.div_mod_to_equations; lia]
             |first [reflexivity | exfalso; Z.div_mod_to_equations; lia]]|];
     split; [split; intros ?; Z.div_mod_to_equations; lia|];
     split; [split; intros ?; Z.div_mod_to_equations; lia|];
     split; [Z.div_mod_to_equations; lia|];
     split; Z.div_mod_to_equations; lia).
Qed.

Lemma gregorian_leap_shifted (y : Z) :
  gregorian_leap y = true ->
  (y + 4800) mod 4 = 0 /\
  ((y + 4800) mod 100 <> 0 \/ (y + 4800) mod 400 = 0).
Proof.
  unfold gregorian_leap. intros H. apply andb_prop in H. destruct H as [H4 H].
  apply Z.eqb_eq in H4. apply orb_prop in H.
  split; [Z.div_mod_to_equations; lia|].
  destruct H as [H|H].
  - left. apply negb_true_iff, Z.eqb_neq in H. Z.div_mod_to_equations. lia.
  - right. apply Z.eqb_eq in H. Z.div_mod_to_equations. lia.
Qed.

(** With floor division the two Gregorian formulas are inverse on every
    valid date of the proleptic calendar, whatever the year. *)
Lemma floor_gregorian_round_trip (y m d : Z) :
  valid_gregorian y m d = true ->
  Floor.jdn_to_gregorian (Floor.gregorian_to_jdn y m d) = (y, m, d).
Proof.
  intros Hv.
  pose proof (gregorian_month_decomposition y m d Hv) as Hmd.
  cbv zeta in Hmd. unfold Floor.jdn_to_gregorian, Floor.gregorian_to_jdn.
  set (a0 := (14 - m) / 12) in *. set (M := m + 12 * a0 - 3) in *.
  set (T := (153 * M + 2) / 5) in *. set (Y := y + 4800 - a0).
  destruct Hmd as (Hdoy & Hleap & Ha1 & Ha0 & HM & HM10 & HMr).
  assert (HY : d - 1 + T = 365 ->
               (Y + 1) mod 4 = 0 /\
               ((Y + 1) mod 100 <> 0 \/ (Y + 1) mod 400 = 0)).
  { intros E. destruct (Hleap E) as [Hl Hm2].
    replace (Y + 1) with (y + 4800) by (subst Y; lia).
    apply gregorian_leap_shifted, Hl. }
  pose proof (gregorian_year_decomposition Y (d - 1 + T) Hdoy HY) as Hyd.
  cbv zeta in Hyd.
  replace (d + T + 365 * Y + Y / 4 - Y / 100 + Y / 400 - 32045 + 32044)
    with (d - 1 + T + 365 * Y + Y / 4 - Y / 100 + Y / 400) by lia.
  set (a := d - 1 + T + 365 * Y + Y / 4 - Y / 100 + Y / 400) in *.
  set (b := (4 * a + 3) / 146097) in *.
  set (c := a - b * 146097 / 4) in *.
  set (d' := (4 * c + 3) / 1461) in *.
  set (e := c - 1461 * d' / 4) in *.
  destruct Hyd as (Eb & Ed & Ee).
  rewrite Ee, HM. fold T. rewrite HM10, Eb, Ed.
  f_equal; [f_equal|].
  - subst Y. Z.div_mod_to_equations. lia.
  - subst M. lia.
  - lia.
Qed.

(** Where no operand is negative and no intermediate value leaves the
    range of [int], the routines compute the formulas with floor
    division. *)
Lemma gregorian_to_jdn_floor (y m d : Z) :
  1 <= m <= 12 -> 1 <= d <= 31 ->
  0 <= y + 4800 - (14 - m) / 12 -> y <= 5000000 ->
  gregorian_to_jdn y m d = Floor.gregorian_to_jdn y m d.
Proof.
  intros Hm Hd Hy Hy'. unfold gregorian_to_jdn, Floor.gregorian_to_jdn.
  int_ideal. reflexivity.
Qed.

Lemma jdn_to_gregorian_floor (jdn : Z) :
  -32044 <= jdn <= 536838867 ->
  jdn_to_gregorian jdn = Floor.jdn_to_gregorian jdn.
Proof.
  intros H. unfold jdn_to_gregorian, Floor.jdn_to_gregorian.
  int_ideal. reflexivity.
Qed.

Lemma valid_gregorian_bounds (y m d : Z) :
  valid_gregorian y m d = true -> 1 <= m <= 12 /\ 1 <= d <= 31.
Proof.
  unfold valid_gregorian, gregorian_month_length. intros Hv. bool_hyps.
  destruct (m =? 2); [destruct (gregorian_leap y); lia|].
  destruct ((m =? 4) || (m =? 6) || (m =? 9) || (m =? 11)); lia.
Qed.

(** C6, as the code has it. For every valid date of the proleptic
    Gregorian calendar from 1 March of year -4800 to the end of year
    1465101, [jdn_to_gregorian (gregorian_to_jdn y m d)] is (y, m, d):
    from that day on no operand of a division is negative, and up to
    that year every intermediate value fits in an [int]. *)
Theorem gregorian_round_trip (y m d : Z) :
  valid_gregorian y m d = true ->
  -4800 < y \/ (y = -4800 /\ 3 <= m) ->
  y <= 1465101 ->
  jdn_to_gregorian (gregorian_to_jdn y m d) = (y, m, d).
Proof.
  intros Hv Hlo Hhi.
  destruct (valid_gregorian_bounds y m d Hv) as [Hm Hd].
  assert (HY : 0 <= y + 4800 - (14 - m) / 12)
    by (Z.div_mod_to_equations; lia).
  rewrite gregorian_to_jdn_floor by lia.
  rewrite jdn_to_gregorian_floor.
  - apply floor_gregorian_round_trip, Hv.
  - unfold Floor.gregorian_to_jdn. Z.div_mod_to_equations. lia.
Qed.

Lemma gregorian_round_trip_witness :
  jdn_to_gregorian (gregorian_to_jdn 2015 9 11) = (2015, 9, 11).
Proof.
  apply (gregorian_round_trip 2015 9 11).
  - reflexivity.
  - lia.
  - lia.
Defined.

(** C6, as stated, fails on the valid date 29 February -4800, the day
    before the range of the theorem above: the year of the formula is
    -1 there, C's division rounds -1/4, -1/100 and -1/400 to 0, and the
    round trip returns 1 March. *)
Lemma gregorian_round_trip_fails_before_march_4800 :
  valid_gregorian (-4800) 2 29 = true /\
  jdn_to_gregorian (gregorian_to_jdn (-4800) 2 29) = (-4800, 3, 1) /\
  jdn_to_gregorian (gregorian_to_jdn (-4800) 2 29) <> (-4800, 2, 29).
Proof. repeat split; vm_compute; solve [reflexivity | discriminate]. Qed.

(** Past 18 October 1465102, [4 * a + 3] in [jdn_to_gregorian] leaves
    the range of [int]. *)
Lemma gregorian_round_trip_int_range :
  jdn_to_gregorian (gregorian_to_jdn 1465102 10 18) = (1465102, 10, 18) /\
  valid_gregorian 1465102 10 19 = true /\
  jdn_to_gregorian (gregorian_to_jdn 1465102 10 19)
  = (-772911, -1403577, 858993486).
Proof. repeat split; vm_compute; reflexivity. Qed.

(** The other composition: from a JDN to a Gregorian date and back. *)
Lemma floor_jdn_round_trip (jdn : Z) :
  -32044 <= jdn ->
  let '(y, m, d) := Floor.jdn_to_gregorian jdn in
  Floor.gregorian_to_jdn y m d = jdn /\
  1 <= m <= 12 /\ 1 <= d <= 31 /\
  0 <= y + 4800 - (14 - m) / 12 /\ 146097 * y <= 400 * jdn.
Proof.
  intros Hn. unfold Floor.jdn_to_gregorian, Floor.gregorian_to_jdn.
  set (a := jdn + 32044). set (b := (4 * a + 3) / 146097).
  set (c := a - b * 146097 / 4). set (d := (4 * c + 3) / 1461).
  set (e := c - 1461 * d / 4). set (m := (5 * e + 2) / 153).
  assert (Hb : 0 <= b /\ 0 <= c <= 36524)
    by (subst b c a; Z.div_mod_to_equations; lia).
  assert (Hc : c = a - 36524 * b - b / 4)
    by (subst c; Z.div_mod_to_equations; lia).
  assert (Hd : 0 <= d <= 99 /\ 0 <= e <= 365)
    by (subst d e; Z.div_mod_to_equations; lia).
  assert (He : e = c - 365 * d - d / 4)
    by (subst e; Z.div_mod_to_equations; lia).
  assert (Hm : 0 <= m <= 11) by (subst m; Z.div_mod_to_equations; lia).
  assert (Hday : 1 <= e - (153 * m + 2) / 5 + 1 <= 31)
    by (subst m; Z.div_mod_to_equations; lia).
  assert (Hm10 : (14 - (m + 3 - 12 * (m / 10))) / 12 = m / 10 /\
                 0 <= m / 10 <= 1)
    by (Z.div_mod_to_equations; lia).
  destruct Hm10 as [Hm10 Hm10'].
  clearbody m e d c b. rewrite Hm10.
  replace (b * 100 + d - 4800 + m / 10 + 4800 - m / 10) with (100 * b + d) by lia.
  replace (m + 3 - 12 * (m / 10) + 12 * (m / 10) - 3) with m by lia.
  assert (H4 : (100 * b + d) / 4 = 25 * b + d / 4)
    by (Z.div_mod_to_equations; lia).
  assert (H100 : (100 * b + d) / 100 = b) by (Z.div_mod_to_equations; lia).
  assert (H400 : (100 * b + d) / 400 = b / 4) by (Z.div_mod_to_equations; lia).
  rewrite H4, H100, H400.
  repeat split; try lia; subst a; Z.div_mod_to_equations; lia.
Qed.

Lemma jdn_gregorian_round_trip (jdn : Z) :
  -32044 <= jdn <= 536838867 ->
  let '(y, m, d) := jdn_to_gregorian jdn in gregorian_to_jdn y m d = jdn.
Proof.
  intros H. rewrite jdn_to_gregorian_floor by assumption.
  pose proof (floor_jdn_round_trip jdn (proj1 H)) as Hf.
  destruct (Floor.jdn_to_gregorian jdn) as [[y m] d].
  destruct Hf as (Hf & Hm & Hd & Hy & Hy').
  rewrite gregorian_to_jdn_floor by lia. exact Hf.
Qed.

(** From a JDN to an Ethiopian date and back, on every day but the
    last of a 1461-day cycle. *)
Lemma jdn_ethiopian_round_trip (jdn : Z) :
  ETHIOPIAN_EPOCH <= jdn <= 2000000000 ->
  (jdn - ETHIOPIAN_EPOCH) mod 1461 <> 1460 ->
  let '(y, m, d) := jdn_to_ethiopian jdn in ethiopian_to_jdn y m d = jdn.
Proof.
  intros Hr Hne.
  set (q := (jdn - ETHIOPIAN_EPOCH) / 1461).
  set (r := (jdn - ETHIOPIAN_EPOCH) mod 1461) in *.
  assert (Hq : jdn = ETHIOPIAN_EPOCH + 1461 * q + r /\
               0 <= q <= 1400000 /\ 0 <= r < 1460).
  { subst q r. unfold ETHIOPIAN_EPOCH in *. Z.div_mod_to_equations. lia. }
  clearbody q r. destruct Hq as (-> & Hq & Hr').
  unfold jdn_to_ethiopian. rewrite eth_year_and_doy_cycle by lia.
  destruct (Z.eqb_spec r 1460); [lia|].
  set (yoe := r / 365). set (doy := r mod 365).
  assert (Hyd : r = 365 * yoe + doy /\ 0 <= yoe <= 3 /\ 0 <= doy <= 364)
    by (subst yoe doy; Z.div_mod_to_equations; lia).
  clearbody yoe doy. destruct Hyd as (-> & Hyoe & Hdoy).
  unfold eth_month_day_raw.
  assert (Hmax : 5 <= max_days (4 * q + yoe + 1))
    by (unfold max_days; destruct (is_leap _); lia).
  destruct (Z.ltb_spec doy 360) as [L|L]; int_ideal.
  - rewrite ethiopian_to_jdn_floor by (Z.div_mod_to_equations; lia).
    destruct (Z.leb_spec (doy / 30 + 1) 12);
      unfold ETHIOPIAN_EPOCH; Z.div_mod_to_equations; lia.
  - destruct (Z.gtb_spec (doy - 360 + 1) (max_days (4 * q + yoe + 1))); [lia|].
    rewrite ethiopian_to_jdn_floor by lia.
    change (13 <=? 12) with false. cbv iota.
    unfold ETHIOPIAN_EPOCH; Z.div_mod_to_equations; lia.
Qed.

(** Where [to_ethiopian_datetime] does return its argument: on every
    timestamp whose date lies at or after the Ethiopian epoch and is not
    the last day of a 1461-day cycle (with the date in the range of the
    Gregorian routines and the timestamp in the range of 64 bits). *)
Lemma to_ethiopian_datetime_identity
    (USECS_PER_DAY : Z) (timestamp_date : Z -> Z) (timestamp_val : Z) :
  let date_val := timestamp_date timestamp_val in
  let jdn := date_val + POSTGRES_EPOCH_JDATE in
  ETHIOPIAN_EPOCH <= jdn <= 536838867 ->
  (jdn - ETHIOPIAN_EPOCH) mod 1461 <> 1460 ->
  -9223372036854775808 <= date_val * USECS_PER_DAY <= 9223372036854775807 ->
  -9223372036854775808 <= timestamp_val <= 9223372036854775807 ->
  -9223372036854775808 <= timestamp_val - date_val * USECS_PER_DAY
     <= 9223372036854775807 ->
  to_ethiopian_datetime USECS_PER_DAY timestamp_date (Some timestamp_val)
  = Some timestamp_val.
Proof.
  intros date_val jdn Hj Hne HdU Ht Hoff.
  unfold to_ethiopian_datetime, dateadt_to_gregorian. fold date_val.
  assert (Ej : Int.add date_val POSTGRES_EPOCH_JDATE = jdn).
  { subst jdn. unfold POSTGRES_EPOCH_JDATE, ETHIOPIAN_EPOCH in *.
    int_ideal. reflexivity. }
  rewrite Ej. cbv zeta.
  assert (Hg : -32044 <= jdn <= 536838867)
    by (unfold ETHIOPIAN_EPOCH in Hj; lia).
  pose proof (jdn_gregorian_round_trip jdn Hg) as Hgr.
  destruct (jdn_to_gregorian jdn) as [[gy gm] gd] eqn:Egreg.
  rewrite Hgr.
  assert (He : ETHIOPIAN_EPOCH <= jdn <= 2000000000) by lia.
  pose proof (jdn_ethiopian_round_trip jdn He Hne) as Her.
  destruct (jdn_to_ethiopian jdn) as [[ey em] ed].
  rewrite Her, Egreg. unfold gregorian_to_dateadt. rewrite Hgr.
  assert (Ed : Int.sub jdn POSTGRES_EPOCH_JDATE = date_val).
  { subst jdn. unfold POSTGRES_EPOCH_JDATE, ETHIOPIAN_EPOCH in *.
    int_ideal. lia. }
  rewrite Ed. unfold Int64.add, Int64.sub, Int64.mul.
  rewrite (wrap64_id (date_val * USECS_PER_DAY)) by lia.
  rewrite (wrap64_id (timestamp_val - _)) by lia.
  rewrite wrap64_id by lia. f_equal. lia.
Qed.

(** ** Truncating and floor division *)

(** C5, as the code has it. The divisions of the three routines are C's
    truncating division, and each routine returns the value of the
    formulas with floor division where no operand of a division is
    negative and no intermediate value leaves the range of [int]:
    [gregorian_to_jdn] on month 1..12, day 1..31 from 1 March -4800 to
    year 5000000, [jdn_to_gregorian] on JDN -32044 to 536838867, and
    [jdn_to_ethiopian] from the Ethiopian epoch to [INT_MAX]. *)
Theorem truncating_division_is_floor_on_nonnegative_operands :
  (forall y m d : Z,
     1 <= m <= 12 -> 1 <= d <= 31 ->
     -4800 < y \/ (y = -4800 /\ 3 <= m) -> y <= 5000000 ->
     gregorian_to_jdn y m d = Floor.gregorian_to_jdn y m d) /\
  (forall jdn : Z,
     -32044 <= jdn <= 536838867 ->
     jdn_to_gregorian jdn = Floor.jdn_to_gregorian jdn) /\
  (forall jdn : Z,
     ETHIOPIAN_EPOCH <= jdn <= Int.INT_MAX ->
     jdn_to_ethiopian jdn = Floor.jdn_to_ethiopian jdn).
Proof.
  split; [|split].
  - intros y m d Hm Hd Hlo Hhi. apply gregorian_to_jdn_floor; try lia.
    Z.div_mod_to_equations. lia.
  - apply jdn_to_gregorian_floor.
  - apply jdn_to_ethiopian_floor.
Qed.

Lemma truncating_division_is_floor_on_nonnegative_operands_witness :
  gregorian_to_jdn 2015 9 11 = Floor.gregorian_to_jdn 2015 9 11 /\
  jdn_to_gregorian 2457277 = Floor.jdn_to_gregorian 2457277 /\
  jdn_to_ethiopian 2457277 = Floor.jdn_to_ethiopian 2457277.
Proof.
  destruct truncating_division_is_floor_on_nonnegative_operands
    as (Hg & Hj & He).
  split; [|split].
  - apply (Hg 2015 9 11); lia.
  - apply (Hj 2457277); lia.
  - apply (He 2457277). unfold ETHIOPIAN_EPOCH, Int.INT_MAX. lia.
Defined.

(** * Further properties of the routines *)

(** ** Gregorian dates of Julian day numbers *)

Lemma floor_jdn_to_gregorian_valid (jdn : Z) :
  -32044 <= jdn ->
  let '(y, m, d) := Floor.jdn_to_gregorian jdn in valid_gregorian y m d = true.
Proof.
  intros Hn. unfold Floor.jdn_to_gregorian.
  set (a := jdn + 32044). set (b := (4 * a + 3) / 146097).
  set (c := a - b * 146097 / 4). set (d := (4 * c + 3) / 1461).
  set (e := c - 1461 * d / 4). set (m := (5 * e + 2) / 153).
  assert (Hc : 0 <= b /\ 0 <= c <= 36524 /\ (c = 36524 -> b mod 4 = 3))
    by (subst b c a; Z.div_mod_to_equations; lia).
  assert (Hd : 0 <= d <= 99 /\ 0 <= e <= 365 /\
               (e = 365 -> d mod 4 = 3 /\ (d = 99 -> c = 36524)))
    by (subst d e; Z.div_mod_to_equations; lia).
  assert (Hm : 0 <= m <= 11 /\ 153 * m <= 5 * e + 2 < 153 * m + 153)
    by (subst m; Z.div_mod_to_equations; lia).
  clearbody m e d c b.
  set (day := e - (153 * m + 2) / 5 + 1).
  set (month := m + 3 - 12 * (m / 10)).
  set (year := b * 100 + d - 4800 + m / 10).
  assert (Hmonth : 1 <= month <= 12 /\ (month = 2 <-> m = 11) /\
                   (3 <= month -> month = m + 3) /\
                   (month <= 2 -> month = m - 9 /\ m / 10 = 1))
    by (subst month; Z.div_mod_to_equations; lia).
  assert (Hday : 1 <= day /\ (m = 11 -> day = e - 336) /\
                 (m = 1 \/ m = 3 \/ m = 6 \/ m = 8 -> day <= 30) /\ day <= 31)
    by (subst day; Z.div_mod_to_equations; lia).
  assert (Hleap : e = 365 -> gregorian_leap year = true).
  { intros E. destruct Hd as (Hd & He & Hd'). destruct (Hd' E) as [Hd4 Hd99].
    assert (Hm11 : m = 11 /\ m / 10 = 1) by (Z.div_mod_to_equations; lia).
    unfold gregorian_leap.
    assert (H4 : year mod 4 = 0) by (subst year; Z.div_mod_to_equations; lia).
    rewrite (proj2 (Z.eqb_eq _ _) H4). cbn [andb].
    destruct (Z.eqb_spec (year mod 100) 0) as [H100|H100]; [|reflexivity].
    cbn [negb orb]. apply Z.eqb_eq.
    assert (d = 99) by (subst year; Z.div_mod_to_equations; lia).
    assert (b mod 4 = 3) by (apply Hc, Hd99; assumption).
    subst year. Z.div_mod_to_equations. lia. }
  clearbody day month year.
  unfold valid_gregorian.
  repeat (apply andb_true_intro; split); try (apply Z.leb_le; lia).
  apply Z.leb_le. unfold gregorian_month_length.
  destruct (Z.eqb_spec month 2) as [E2|E2].
  - destruct (gregorian_leap year) eqn:El; [lia|].
    assert (e <> 365) by (intros E; specialize (Hleap E); discriminate).
    lia.
  - destruct (Z.eqb_spec month 4), (Z.eqb_spec month 6),
      (Z.eqb_spec month 9), (Z.eqb_spec month 11); cbn [orb]; lia.
Qed.

(** X1. For every JDN from -32044 to 536838867, the triple that
    [jdn_to_gregorian] returns is a date of the proleptic Gregorian
    calendar: month 1..12, day 1 to the last day of that month (29
    February only in leap years), not before 1 March -4800. *)
Theorem jdn_to_gregorian_valid_date (jdn y m d : Z) :
  -32044 <= jdn <= 536838867 ->
  jdn_to_gregorian jdn = (y, m, d) ->
  valid_gregorian y m d = true /\ (-4800 < y \/ (y = -4800 /\ 3 <= m)).
Proof.
  intros Hr E. rewrite jdn_to_gregorian_floor in E by assumption.
  pose proof (floor_jdn_to_gregorian_valid jdn (proj1 Hr)) as Hv.
  pose proof (floor_jdn_round_trip jdn (proj1 Hr)) as Hb.
  rewrite E in Hv, Hb. split; [exact Hv|].
  destruct Hb as (_ & Hm & _ & Hy & _). Z.div_mod_to_equations. lia.
Qed.

Lemma jdn_to_gregorian_valid_date_witness :
  valid_gregorian 2015 9 11 = true /\
  (-4800 < 2015 \/ (2015 = -4800 /\ 3 <= 9)).
Proof.
  apply (jdn_to_gregorian_valid_date 2457277 2015 9 11).
  - lia.
  - reflexivity.
Defined.

(** X2. For every JDN from -32044 to 536838867, [gregorian_to_jdn]
    applied to the date that [jdn_to_gregorian] returns gives the JDN
    back; so [jdn_to_gregorian] sends different JDNs of that range to
    different dates. *)
Theorem jdn_to_gregorian_then_back (jdn y m d : Z) :
  -32044 <= jdn <= 536838867 ->
  jdn_to_gregorian jdn = (y, m, d) ->
  gregorian_to_jdn y m d = jdn.
Proof.
  intros Hr E. pose proof (jdn_gregorian_round_trip jdn Hr) as H.
  rewrite E in H. exact H.
Qed.

Lemma jdn_to_gregorian_then_back_witness :
  gregorian_to_jdn 2015 9 11 = 2457277.
Proof.
  apply (jdn_to_gregorian_then_back 2457277 2015 9 11).
  - lia.
  - reflexivity.
Defined.

(** The JDN of a valid date in the range of the routines. *)
Lemma gregorian_to_jdn_bounds (y m d : Z) :
  valid_gregorian y m d = true ->
  -4800 < y \/ (y = -4800 /\ 3 <= m) -> y <= 1465101 ->
  gregorian_to_jdn y m d = Floor.gregorian_to_jdn y m d /\
  -32044 <= gregorian_to_jdn y m d <= 536838867.
Proof.
  intros Hv Hlo Hhi.
  destruct (valid_gregorian_bounds y m d Hv) as [Hm Hd].
  assert (HY : 0 <= y + 4800 - (14 - m) / 12)
    by (Z.div_mod_to_equations; lia).
  rewrite gregorian_to_jdn_floor by lia. split; [reflexivity|].
  unfold Floor.gregorian_to_jdn. Z.div_mod_to_equations. lia.
Qed.

(** ** The dates of PostgreSQL *)

(** X3. For every [DateADT] from -2483589 to 534387322 (JDN -32044 to
    536838867), [dateadt_to_gregorian] returns a valid Gregorian date
    and [gregorian_to_dateadt] maps that date back to the same
    [DateADT]. *)
Theorem dateadt_to_gregorian_then_back (date_val y m d : Z) :
  -2483589 <= date_val <= 534387322 ->
  dateadt_to_gregorian date_val = (y, m, d) ->
  valid_gregorian y m d = true /\ gregorian_to_dateadt y m d = date_val.
Proof.
  intros Hr E. unfold dateadt_to_gregorian, gregorian_to_dateadt in *.
  assert (Ej : Int.add date_val POSTGRES_EPOCH_JDATE = date_val + 2451545)
    by (unfold POSTGRES_EPOCH_JDATE; int_ideal; reflexivity).
  rewrite Ej in E.
  assert (Hj : -32044 <= date_val + 2451545 <= 536838867) by lia.
  split.
  - pose proof (floor_jdn_to_gregorian_valid _ (proj1 Hj)) as Hv.
    rewrite <- jdn_to_gregorian_floor, E in Hv by assumption. exact Hv.
  - pose proof (jdn_gregorian_round_trip _ Hj) as H. rewrite E in H.
    cbv zeta. rewrite H. unfold POSTGRES_EPOCH_JDATE. int_ideal. lia.
Qed.

Lemma dateadt_to_gregorian_then_back_witness :
  valid_gregorian 2000 1 1 = true /\ gregorian_to_dateadt 2000 1 1 = 0.
Proof.
  apply (dateadt_to_gregorian_then_back 0 2000 1 1).
  - lia.
  - reflexivity.
Defined.

(** X4. For every valid Gregorian date from 1 March -4800 to the end
    of year 1465101, [dateadt_to_gregorian] applied to the [DateADT]
    that [gregorian_to_dateadt] computes returns the date. *)
Theorem gregorian_to_dateadt_then_back (y m d : Z) :
  valid_gregorian y m d = true ->
  -4800 < y \/ (y = -4800 /\ 3 <= m) -> y <= 1465101 ->
  dateadt_to_gregorian (gregorian_to_dateadt y m d) = (y, m, d).
Proof.
  intros Hv Hlo Hhi.
  destruct (gregorian_to_jdn_bounds y m d Hv Hlo Hhi) as [Ef Hb].
  unfold dateadt_to_gregorian, gregorian_to_dateadt. cbv zeta.
  set (jdn := gregorian_to_jdn y m d) in *.
  assert (Ej : Int.add (Int.sub jdn POSTGRES_EPOCH_JDATE) POSTGRES_EPOCH_JDATE
               = jdn)
    by (unfold POSTGRES_EPOCH_JDATE; int_ideal; lia).
  rewrite Ej, jdn_to_gregorian_floor by assumption.
  rewrite Ef. apply floor_gregorian_round_trip, Hv.
Qed.

Lemma gregorian_to_dateadt_then_back_witness :
  dateadt_to_gregorian (gregorian_to_dateadt 2016 2 29) = (2016, 2, 29).
Proof.
  apply (gregorian_to_dateadt_then_back 2016 2 29).
  - reflexivity.
  - lia.
  - lia.
Defined.

(** ** Ethiopian dates of Julian day numbers *)

Lemma date_eq (a b c y m d : Z) :
  (a, b, c) = (y, m, d) -> a = y /\ b = m /\ c = d.
Proof. intros H. injection H. auto. Qed.

(** The date [jdn_to_ethiopian] returns for day [r] of the cycle [q]
    after the epoch. *)
Lemma jdn_to_ethiopian_cycle (q r : Z) :
  0 <= q <= 1468692 -> 0 <= r < 1461 ->
  jdn_to_ethiopian (ETHIOPIAN_EPOCH + 1461 * q + r) =
  if r =? 1460 then (4 * q + 4, 13, 5)
  else if r mod 365 <? 360
       then (4 * q + r / 365 + 1, r mod 365 / 30 + 1, r mod 365 mod 30 + 1)
       else (4 * q + r / 365 + 1, 13, r mod 365 - 359).
Proof.
  intros Hq Hr. unfold jdn_to_ethiopian.
  rewrite eth_year_and_doy_cycle by assumption.
  destruct (Z.eqb_spec r 1460) as [E|E].
  - change (eth_month_day_raw 365) with (13, 6). cbv iota beta.
    change (365 <? 360) with false. cbv iota.
    assert (Hl : is_leap (4 * q + 4) = false).
    { unfold is_leap, Int.rem. rewrite Z.rem_mod_nonneg by lia.
      replace ((4 * q + 4) mod 4) with 0 by (Z.div_mod_to_equations; lia).
      reflexivity. }
    unfold max_days. rewrite Hl. reflexivity.
  - set (doy := r mod 365).
    assert (Hdoy : 0 <= doy <= 364) by (subst doy; Z.div_mod_to_equations; lia).
    unfold eth_month_day_raw.
    destruct (Z.ltb_spec doy 360) as [L|L]; int_ideal; [reflexivity|].
    assert (Hmax : 5 <= max_days (4 * q + r / 365 + 1))
      by (unfold max_days; destruct (is_leap _); lia).
    destruct (Z.gtb_spec (doy - 360 + 1) (max_days (4 * q + r / 365 + 1)));
      [lia|]. f_equal. lia.
Qed.

(** Every JDN from the epoch on is a day [r] of a cycle [q]. *)
Lemma jdn_cycle_position (jdn : Z) :
  ETHIOPIAN_EPOCH <= jdn <= Int.INT_MAX ->
  exists q r, jdn = ETHIOPIAN_EPOCH + 1461 * q + r /\
              0 <= q <= 1468692 /\ 0 <= r < 1461 /\
              r = (jdn - ETHIOPIAN_EPOCH) mod 1461.
Proof.
  intros H. exists ((jdn - ETHIOPIAN_EPOCH) / 1461),
                   ((jdn - ETHIOPIAN_EPOCH) mod 1461).
  unfold ETHIOPIAN_EPOCH, Int.INT_MAX in *. Z.div_mod_to_equations. lia.
Qed.

(** X5. From the epoch on, [jdn_to_ethiopian] returns a date that
    satisfies the invariants of an Ethiopian date and that the checks of
    [from_ethiopian_date] accept. *)
Theorem jdn_to_ethiopian_valid_date (jdn y m d : Z) :
  ETHIOPIAN_EPOCH <= jdn <= Int.INT_MAX ->
  jdn_to_ethiopian jdn = (y, m, d) ->
  valid_ethiopian y m d = true /\ validate_fields y m d = None.
Proof.
  intros Hr E. destruct (jdn_cycle_position jdn Hr) as (q & r & -> & Hq & Hr' & _).
  rewrite jdn_to_ethiopian_cycle in E by assumption.
  assert (H : 1 <= y /\ 1 <= m <= 13 /\ 1 <= d /\
              (m <= 12 -> d <= 30) /\ (m = 13 -> d <= 5)).
  { destruct (Z.eqb_spec r 1460); [apply date_eq in E; lia|].
    destruct (Z.ltb_spec (r mod 365) 360); apply date_eq in E;
      Z.div_mod_to_equations; lia. }
  clear E. destruct H as (Hy & Hm & Hd & H30 & H5). split.
  - unfold valid_ethiopian.
    destruct (Z.leb_spec m 12);
      [|destruct (y mod 4 =? 3)];
      repeat (apply andb_true_intro; split); apply Z.leb_le; lia.
  - unfold validate_fields.
    destruct (Z.ltb_spec m 1); [lia|]. destruct (Z.gtb_spec m 13); [lia|].
    cbn [orb]. destruct (Z.ltb_spec d 1); [lia|].
    destruct (Z.leb_spec m 12).
    + destruct (Z.gtb_spec d 30); [lia|reflexivity].
    + destruct (Int.rem y 4 =? 3);
        match goal with |- context [?a >? ?b] => destruct (Z.gtb_spec a b) end;
        solve [lia | reflexivity].
Qed.

Lemma jdn_to_ethiopian_valid_date_witness :
  valid_ethiopian 2008 13 5 = true /\ validate_fields 2008 13 5 = None.
Proof.
  apply (jdn_to_ethiopian_valid_date 2457642 2008 13 5).
  - unfold ETHIOPIAN_EPOCH, Int.INT_MAX. lia.
  - reflexivity.
Defined.

(** X6. From the epoch on, [jdn_to_ethiopian] never returns day 6 of
    month 13, of whatever year. *)
Theorem jdn_to_ethiopian_never_day_6 (jdn y : Z) :
  ETHIOPIAN_EPOCH <= jdn <= Int.INT_MAX ->
  jdn_to_ethiopian jdn <> (y, 13, 6).
Proof.
  intros Hr E. destruct (jdn_cycle_position jdn Hr) as (q & r & -> & Hq & Hr' & _).
  rewrite jdn_to_ethiopian_cycle in E by assumption.
  destruct (Z.eqb_spec r 1460); [discriminate|].
  destruct (Z.ltb_spec (r mod 365) 360); apply date_eq in E;
    Z.div_mod_to_equations; lia.
Qed.

Lemma jdn_to_ethiopian_never_day_6_witness :
  jdn_to_ethiopian 1725681 <> (3, 13, 6).
Proof.
  apply (jdn_to_ethiopian_never_day_6 1725681 3).
  unfold ETHIOPIAN_EPOCH, Int.INT_MAX. lia.
Defined.

(** From a JDN to an Ethiopian date and back, the last day of a cycle
    included. *)
Lemma jdn_ethiopian_round_trip_cases (jdn y m d : Z) :
  ETHIOPIAN_EPOCH <= jdn <= 2000000000 ->
  jdn_to_ethiopian jdn = (y, m, d) ->
  ethiopian_to_jdn y m d =
  if (jdn - ETHIOPIAN_EPOCH) mod 1461 =? 1460 then jdn - 1 else jdn.
Proof.
  intros Hr E.
  destruct (Z.eqb_spec ((jdn - ETHIOPIAN_EPOCH) mod 1461) 1460) as [E0|E0].
  - assert (Hr' : ETHIOPIAN_EPOCH <= jdn <= Int.INT_MAX)
      by (unfold Int.INT_MAX; lia).
    destruct (jdn_cycle_position jdn Hr') as (q & r & -> & Hq & Hr'' & Er).
    rewrite jdn_to_ethiopian_cycle in E by assumption.
    rewrite <- Er in E0. subst r. change (1460 =? 1460) with true in E.
    apply date_eq in E. destruct E as (<- & <- & <-).
    rewrite ethiopian_to_jdn_floor by (unfold ETHIOPIAN_EPOCH in *; lia).
    change (13 <=? 12) with false. cbv iota.
    unfold ETHIOPIAN_EPOCH. Z.div_mod_to_equations. lia.
  - pose proof (jdn_ethiopian_round_trip jdn Hr E0) as H.
    rewrite E in H. exact H.
Qed.

(** X7. From the epoch to JDN 2000000000, [ethiopian_to_jdn] applied to
    the date that [jdn_to_ethiopian] returns gives the JDN back, except
    on the last day of each 1461-day cycle, where it gives the JDN of
    the day before. *)
Theorem jdn_to_ethiopian_then_back (jdn y m d : Z) :
  ETHIOPIAN_EPOCH <= jdn <= 2000000000 ->
  jdn_to_ethiopian jdn = (y, m, d) ->
  ethiopian_to_jdn y m d =
  if (jdn - ETHIOPIAN_EPOCH) mod 1461 =? 1460 then jdn - 1 else jdn.
Proof. apply jdn_ethiopian_round_trip_cases. Qed.

Lemma jdn_to_ethiopian_then_back_witness :
  ethiopian_to_jdn 2008 13 5 =
  if (2457642 - ETHIOPIAN_EPOCH) mod 1461 =? 1460 then 2457642 - 1 else 2457642.
Proof.
  apply (jdn_to_ethiopian_then_back 2457642 2008 13 5).
  - unfold ETHIOPIAN_EPOCH. lia.
  - reflexivity.
Defined.

(** ** Ethiopian dates and their Julian day numbers *)

(** The round trip on a valid date, day 6 of month 13 included. *)
Lemma ethiopian_round_trip_cases (y m d : Z) :
  valid_ethiopian y m d = true -> y <= 5000000 ->
  jdn_to_ethiopian (ethiopian_to_jdn y m d) =
  if (m =? 13) && (d =? 6) then (y + 1, 1, 1) else (y, m, d).
Proof.
  intros Hv Hy.
  destruct (Z.eqb_spec m 13) as [Em|Em]; cbn [andb];
    [destruct (Z.eqb_spec d 6) as [Ed|Ed]|].
  - subst m d. rewrite ethiopian_to_jdn_cycle by assumption.
    unfold valid_ethiopian in Hv. change (13 <=? 12) with false in *.
    cbv iota in *.
    destruct (y mod 4 =? 3) eqn:E3; bool_hyps; [|lia].
    replace (365 * ((y - 1) mod 4) + (30 * 12 + (6 - 1))) with 1095
      by (Z.div_mod_to_equations; lia).
    rewrite jdn_to_ethiopian_cycle by (try (Z.div_mod_to_equations; lia); lia).
    change (1095 =? 1460) with false. change (1095 mod 365) with 0.
    change (1095 / 365) with 3. change (0 <? 360) with true. cbv iota.
    f_equal. f_equal. Z.div_mod_to_equations. lia.
  - apply ethiopian_round_trip_except_day_6; try assumption. lia.
  - apply ethiopian_round_trip_except_day_6; try assumption. lia.
Qed.

(** X8. On every valid Ethiopian date up to year 5000000, the round
    trip through [ethiopian_to_jdn] and [jdn_to_ethiopian] returns the
    date itself, except for day 6 of month 13, for which it returns day
    1 of month 1 of the next year. *)
Theorem ethiopian_round_trip_characterized (y m d : Z) :
  valid_ethiopian y m d = true -> y <= 5000000 ->
  jdn_to_ethiopian (ethiopian_to_jdn y m d) =
  if (m =? 13) && (d =? 6) then (y + 1, 1, 1) else (y, m, d).
Proof. apply ethiopian_round_trip_cases. Qed.

Lemma ethiopian_round_trip_characterized_witness :
  jdn_to_ethiopian (ethiopian_to_jdn 2015 13 6) =
  if (13 =? 13) && (6 =? 6) then (2015 + 1, 1, 1) else (2015, 13, 6).
Proof.
  apply (ethiopian_round_trip_characterized 2015 13 6).
  - reflexivity.
  - lia.
Defined.

(** X9. How the date advances from one JDN to the next, from the epoch
    on: the day goes up by one inside a month, month 1..12 ends after
    day 30, month 13 after day 5, and then day 1 of month 1 of the next
    year follows; but the day before the last of each 1461-day cycle is
    followed by the same date once more. *)
Theorem jdn_to_ethiopian_next_day (jdn y m d : Z) :
  ETHIOPIAN_EPOCH <= jdn < Int.INT_MAX ->
  jdn_to_ethiopian jdn = (y, m, d) ->
  jdn_to_ethiopian (jdn + 1) =
  if (jdn - ETHIOPIAN_EPOCH) mod 1461 =? 1459 then (y, m, d)
  else if m <=? 12 then (if d <? 30 then (y, m, d + 1) else (y, m + 1, 1))
  else if d <? 5 then (y, 13, d + 1) else (y + 1, 1, 1).
Proof.
  intros Hr E.
  assert (Hr' : ETHIOPIAN_EPOCH <= jdn <= Int.INT_MAX) by lia.
  destruct (jdn_cycle_position jdn Hr') as (q & r & -> & Hq & Hr'' & Er).
  rewrite <- Er. clear Er.
  rewrite jdn_to_ethiopian_cycle in E by assumption.
  destruct (Z.eqb_spec r 1460) as [E0|E0].
  - subst r. apply date_eq in E. destruct E as (<- & <- & <-).
    replace (ETHIOPIAN_EPOCH + 1461 * q + 1460 + 1)
      with (ETHIOPIAN_EPOCH + 1461 * (q + 1) + 0) by lia.
    rewrite jdn_to_ethiopian_cycle
      by (unfold ETHIOPIAN_EPOCH, Int.INT_MAX in *; lia).
    change (0 =? 1460) with false. change (0 mod 365) with 0.
    change (0 <? 360) with true. change (1460 =? 1459) with false.
    change (13 <=? 12) with false. change (5 <? 5) with false. cbv iota.
    f_equal. f_equal. Z.div_mod_to_equations. lia.
  - replace (ETHIOPIAN_EPOCH + 1461 * q + r + 1)
      with (ETHIOPIAN_EPOCH + 1461 * q + (r + 1)) by lia.
    rewrite jdn_to_ethiopian_cycle by lia.
    destruct (Z.eqb_spec r 1459) as [E9|E9].
    + subst r. change (1459 + 1 =? 1460) with true.
      change (1459 =? 1459) with true. cbv iota. rewrite <- E.
      change (1459 mod 365 <? 360) with false. cbv iota.
      f_equal. f_equal. Z.div_mod_to_equations. lia.
    + destruct (Z.eqb_spec (r + 1) 1460); [lia|].
      destruct (Z.ltb_spec (r mod 365) 360) as [L|L];
        apply date_eq in E; destruct E as (<- & <- & <-).
      * destruct (Z.leb_spec (r mod 365 / 30 + 1) 12);
          [|Z.div_mod_to_equations; lia].
        destruct (Z.ltb_spec (r mod 365 mod 30 + 1) 30);
          destruct (Z.ltb_spec ((r + 1) mod 365) 360);
          try (f_equal; [f_equal|]); Z.div_mod_to_equations; lia.
      * change (13 <=? 12) with false. cbv iota.
        destruct (Z.ltb_spec (r mod 365 - 359) 5);
          destruct (Z.ltb_spec ((r + 1) mod 365) 360);
          try (f_equal; [f_equal|]); Z.div_mod_to_equations; lia.
Qed.

Lemma jdn_to_ethiopian_next_day_witness :
  jdn_to_ethiopian (2457641 + 1) =
  if (2457641 - ETHIOPIAN_EPOCH) mod 1461 =? 1459 then (2008, 13, 5)
  else if 13 <=? 12 then (if 5 <? 30 then (2008, 13, 5 + 1) else (2008, 13 + 1, 1))
  else if 5 <? 5 then (2008, 13, 5 + 1) else (2008 + 1, 1, 1).
Proof.
  apply (jdn_to_ethiopian_next_day 2457641 2008 13 5).
  - unfold ETHIOPIAN_EPOCH, Int.INT_MAX. lia.
  - reflexivity.
Defined.

(** X10. [ethiopian_to_jdn] keeps the order of valid Ethiopian dates
    (years up to 5000000): an earlier date never gets a larger JDN, and
    two different dates get the same JDN only when the earlier one is
    day 6 of month 13 and the later one day 1 of month 1 of the next
    year. *)
Theorem ethiopian_to_jdn_monotone (y1 m1 d1 y2 m2 d2 : Z) :
  valid_ethiopian y1 m1 d1 = true -> valid_ethiopian y2 m2 d2 = true ->
  y2 <= 5000000 ->
  y1 < y2 \/ (y1 = y2 /\ (m1 < m2 \/ (m1 = m2 /\ d1 < d2))) ->
  ethiopian_to_jdn y1 m1 d1 <= ethiopian_to_jdn y2 m2 d2 /\
  (ethiopian_to_jdn y1 m1 d1 = ethiopian_to_jdn y2 m2 d2 ->
   m1 = 13 /\ d1 = 6 /\ y2 = y1 + 1 /\ m2 = 1 /\ d2 = 1).
Proof.
  intros Hv1 Hv2 Hy Hlt.
  assert (Hy1 : y1 <= 5000000) by lia.
  rewrite !ethiopian_to_jdn_cycle by assumption.
  unfold valid_ethiopian in Hv1, Hv2. bool_hyps.
  assert (B1 : (m1 <= 12 -> d1 <= 30) /\
               (12 < m1 -> d1 <= 6 /\ (d1 = 6 -> y1 mod 4 = 3))).
  { destruct (Z.leb_spec m1 12); [bool_hyps; lia|].
    destruct (Z.eqb_spec (y1 mod 4) 3); bool_hyps; lia. }
  assert (B2 : (m2 <= 12 -> d2 <= 30) /\ (12 < m2 -> d2 <= 6)).
  { destruct (Z.leb_spec m2 12); [bool_hyps; lia|].
    destruct (Z.eqb_spec (y2 mod 4) 3); bool_hyps; lia. }
  destruct (Z.leb_spec m1 12), (Z.leb_spec m2 12);
    (split; [|intros Heq]); Z.div_mod_to_equations; lia.
Qed.

Lemma ethiopian_to_jdn_monotone_witness :
  ethiopian_to_jdn 2015 13 6 <= ethiopian_to_jdn 2016 1 1 /\
  (ethiopian_to_jdn 2015 13 6 = ethiopian_to_jdn 2016 1 1 ->
   13 = 13 /\ 6 = 6 /\ 2016 = 2015 + 1 /\ 1 = 1 /\ 1 = 1).
Proof.
  apply (ethiopian_to_jdn_monotone 2015 13 6 2016 1 1).
  - reflexivity.
  - reflexivity.
  - lia.
  - lia.
Defined.

(** ** The functions called from SQL *)

(** The fields the checks of [from_ethiopian_date] accept, with a
    positive year, are the valid Ethiopian dates. *)
Lemma validate_fields_valid (y m d : Z) :
  validate_fields y m d = None -> 1 <= y -> valid_ethiopian y m d = true.
Proof.
  intros Hv Hy.
  assert (H : ~ (m < 1 \/ 13 < m \/ d < 1 \/ (m <= 12 /\ 30 < d) \/
                 (m = 13 /\ (if Int.rem y 4 =? 3 then 6 else 5) < d))).
  { intros C. apply validate_fields_iff in C. contradiction. }
  unfold Int.rem in H. rewrite Z.rem_mod_nonneg in H by lia.
  unfold valid_ethiopian.
  destruct (Z.leb_spec m 12); [|destruct (y mod 4 =? 3)];
    repeat (apply andb_true_intro; split); apply Z.leb_le; lia.
Qed.

(** X11. Which error [from_ethiopian_date] reports: a month outside
    1..13 is reported whatever the day is; with a month in range, a day
    below 1 is reported next; then a day above 30 of a month up to 12;
    and in month 13 a day above the maximum, with the maximum (6 when
    year % 4 == 3, else 5) and the year. *)
Theorem from_ethiopian_date_error (U y m d : Z) :
  (m < 1 \/ 13 < m -> from_ethiopian_date U y m d = inl (invalid_month m)) /\
  (1 <= m <= 13 -> d < 1 ->
   from_ethiopian_date U y m d = inl (invalid_day_below_1 d)) /\
  (1 <= m <= 12 -> 30 < d ->
   from_ethiopian_date U y m d = inl (invalid_day_of_30 d m)) /\
  (m = 13 -> Int.rem y 4 = 3 -> 6 < d ->
   from_ethiopian_date U y m d = inl (invalid_day_of_month_13 d 6 y)) /\
  (m = 13 -> Int.rem y 4 <> 3 -> 5 < d ->
   from_ethiopian_date U y m d = inl (invalid_day_of_month_13 d 5 y)).
Proof.
  unfold from_ethiopian_date, validate_fields.
  repeat split; intros;
    destruct (Z.ltb_spec m 1); try lia; cbn [orb];
    destruct (Z.gtb_spec m 13); try lia; try reflexivity;
    destruct (Z.ltb_spec d 1); try lia; try reflexivity;
    destruct (Z.leb_spec m 12); try lia;
    try (destruct (Z.gtb_spec d 30); try lia; reflexivity);
    destruct (Z.eqb_spec (Int.rem y 4) 3); try contradiction;
    match goal with |- context [?a >? ?b] => destruct (Z.gtb_spec a b) end;
    try lia; reflexivity.
Qed.

Lemma from_ethiopian_date_error_witness :
  from_ethiopian_date 86400000000 2016 14 31 = inl (invalid_month 14) /\
  from_ethiopian_date 86400000000 2016 13 0 = inl (invalid_day_below_1 0) /\
  from_ethiopian_date 86400000000 2016 12 31 = inl (invalid_day_of_30 31 12) /\
  from_ethiopian_date 86400000000 2015 13 7
  = inl (invalid_day_of_month_13 7 6 2015) /\
  from_ethiopian_date 86400000000 2016 13 6
  = inl (invalid_day_of_month_13 6 5 2016).
Proof.
  split; [|split; [|split; [|split]]].
  - apply (proj1 (from_ethiopian_date_error 86400000000 2016 14 31)). lia.
  - apply (proj1 (proj2 (from_ethiopian_date_error 86400000000 2016 13 0))); lia.
  - apply (proj1 (proj2 (proj2
             (from_ethiopian_date_error 86400000000 2016 12 31)))); lia.
  - apply (proj1 (proj2 (proj2 (proj2
             (from_ethiopian_date_error 86400000000 2015 13 7)))));
      [reflexivity|reflexivity|lia].
  - apply (proj2 (proj2 (proj2 (proj2
             (from_ethiopian_date_error 86400000000 2016 13 6)))));
      [reflexivity|discriminate|lia].
Defined.

(** The JDN of accepted fields, in the range of the Gregorian routines. *)
Lemma ethiopian_to_jdn_closed_form (y m d : Z) :
  validate_fields y m d = None -> 1 <= y <= 1465000 ->
  ethiopian_to_jdn y m d
  = ETHIOPIAN_EPOCH + 365 * (y - 1) + (y - 1) / 4 + 30 * (m - 1) + (d - 1) /\
  ETHIOPIAN_EPOCH <= ethiopian_to_jdn y m d <= 536838867.
Proof.
  intros Hv Hy.
  pose proof (validate_fields_valid y m d Hv (proj1 Hy)) as Hvalid.
  rewrite ethiopian_to_jdn_cycle by (try assumption; lia).
  unfold valid_ethiopian in Hvalid. bool_hyps.
  assert (B : (m <= 12 -> d <= 30) /\ (12 < m -> m = 13 /\ d <= 6)).
  { destruct (Z.leb_spec m 12); [bool_hyps; lia|].
    destruct (y mod 4 =? 3); bool_hyps; lia. }
  unfold ETHIOPIAN_EPOCH.
  destruct (Z.leb_spec m 12); split; Z.div_mod_to_equations; lia.
Qed.

(** The day [from_ethiopian_date] multiplies by [USECS_PER_DAY]. *)
Lemma from_ethiopian_date_day (U y m d : Z) :
  validate_fields y m d = None -> 1 <= y <= 1465000 ->
  from_ethiopian_date U y m d =
  inr (Int64.mul (ethiopian_to_jdn y m d - POSTGRES_EPOCH_JDATE) U).
Proof.
  intros Hv Hy. unfold from_ethiopian_date. rewrite Hv.
  destruct (ethiopian_to_jdn_closed_form y m d Hv Hy) as [Ej Hb].
  assert (Hg : -32044 <= ethiopian_to_jdn y m d <= 536838867)
    by (unfold ETHIOPIAN_EPOCH in Hb; lia).
  pose proof (jdn_gregorian_round_trip _ Hg) as Hgr.
  destruct (jdn_to_gregorian (ethiopian_to_jdn y m d)) as [[gy gm] gd].
  unfold gregorian_to_dateadt. rewrite Hgr. cbv zeta.
  assert (Ed : Int.sub (ethiopian_to_jdn y m d) POSTGRES_EPOCH_JDATE
               = ethiopian_to_jdn y m d - POSTGRES_EPOCH_JDATE).
  { unfold POSTGRES_EPOCH_JDATE, ETHIOPIAN_EPOCH in *. int_ideal. reflexivity. }
  rewrite Ed. reflexivity.
Qed.



(** X13. The text [to_ethiopian_date] gives for the timestamp that
    [from_ethiopian_date] returned for accepted fields (year 1 to
    290000) is the text of those fields, except that day 6 of month 13
    comes back as day 1 of month 1 of the next year. What is used of
    PostgreSQL's [timestamp_date] is that it finds day [n] in the
    timestamp [n * USECS_PER_DAY]. *)
Theorem to_ethiopian_date_of_from_ethiopian_date
    (timestamp_date : Z -> Z) (U y m d timestamp_val : Z) :
  (forall n, -727324 <= n <= 106000000 ->
             timestamp_date (Int64.mul n U) = n) ->
  validate_fields y m d = None -> 1 <= y <= 290000 ->
  from_ethiopian_date U y m d = inr timestamp_val ->
  to_ethiopian_date timestamp_date (Some timestamp_val) =
  Some (if (m =? 13) && (d =? 6) then snprintf_date (y + 1) 1 1
        else snprintf_date y m d).
Proof.
  intros Hhost Hv Hy Hts.
  assert (Hy' : 1 <= y <= 1465000) by lia.
  rewrite from_ethiopian_date_day in Hts by assumption.
  assert (Ets : timestamp_val
                = Int64.mul (ethiopian_to_jdn y m d - POSTGRES_EPOCH_JDATE) U)
    by congruence.
  clear Hts. subst timestamp_val.
  destruct (ethiopian_to_jdn_closed_form y m d Hv Hy') as [Ecf Hb].
  assert (Hday : -727324 <= ethiopian_to_jdn y m d - POSTGRES_EPOCH_JDATE
                 <= 106000000).
  { rewrite Ecf. unfold valid_ethiopian, ETHIOPIAN_EPOCH, POSTGRES_EPOCH_JDATE.
    pose proof (validate_fields_valid y m d Hv (proj1 Hy)) as Hvalid.
    unfold valid_ethiopian in Hvalid. bool_hyps.
    assert (d <= 30)
      by (destruct (m <=? 12), (y mod 4 =? 3); bool_hyps; lia).
    Z.div_mod_to_equations. lia. }
  unfold to_ethiopian_date. rewrite (Hhost _ Hday).
  assert (Hg : -32044 <= ethiopian_to_jdn y m d <= 536838867)
    by (unfold ETHIOPIAN_EPOCH in Hb; lia).
  unfold dateadt_to_gregorian.
  assert (Ej : Int.add (ethiopian_to_jdn y m d - POSTGRES_EPOCH_JDATE)%Z
                 POSTGRES_EPOCH_JDATE = ethiopian_to_jdn y m d).
  { unfold POSTGRES_EPOCH_JDATE, ETHIOPIAN_EPOCH in *. int_ideal. lia. }
  rewrite Ej. cbv zeta.
  pose proof (jdn_gregorian_round_trip _ Hg) as Hgr.
  destruct (jdn_to_gregorian (ethiopian_to_jdn y m d)) as [[gy gm] gd].
  rewrite Hgr.
  rewrite ethiopian_round_trip_cases
    by (try apply validate_fields_valid; try assumption; lia).
  destruct ((m =? 13) && (d =? 6)); reflexivity.
Qed.

Lemma to_ethiopian_date_of_from_ethiopian_date_witness :
  to_ethiopian_date (fun t => t / 86400000000) (Some 495244800000000) =
  Some (if (13 =? 13) && (6 =? 6) then snprintf_date (2007 + 1) 1 1
        else snprintf_date 2007 13 6).
Proof.
  apply (to_ethiopian_date_of_from_ethiopian_date
           (fun t => t / 86400000000) 86400000000 2007 13 6 495244800000000).
  - intros n Hn. unfold Int64.mul. rewrite wrap64_id by lia.
    apply Z.div_mul. lia.
  - reflexivity.
  - lia.
  - vm_compute. reflexivity.
Defined.

(** ** The time-preserving conversion on every date *)

Lemma wrap64_day_shift (U ts a b : Z) :
  Int64.add (Int64.mul a U) (Int64.sub ts (Int64.mul b U))
  = Int64.wrap (ts + (a - b) * U).
Proof.
  unfold Int64.add, Int64.sub, Int64.mul.
  replace (ts + (a - b) * U) with (a * U + (ts - b * U)) by ring.
  generalize (a * U) (b * U). intros X Y. unfold Int64.wrap.
  Z.div_mod_to_equations. lia.
Qed.

(** X15. For every timestamp whose date has a JDN from the epoch to
    536838867, [to_ethiopian_datetime] returns the timestamp itself,
    or, when the date is the last day of a 1461-day cycle, the timestamp
    minus [USECS_PER_DAY] (reduced to 64 bits): the time of day is
    never changed, the date only on those days. *)
Theorem to_ethiopian_datetime_result
    (USECS_PER_DAY : Z) (timestamp_date : Z -> Z) (timestamp_val : Z) :
  let jdn := timestamp_date timestamp_val + POSTGRES_EPOCH_JDATE in
  ETHIOPIAN_EPOCH <= jdn <= 536838867 ->
  to_ethiopian_datetime USECS_PER_DAY timestamp_date (Some timestamp_val)
  = Some (Int64.wrap
            (if (jdn - ETHIOPIAN_EPOCH) mod 1461 =? 1460
             then timestamp_val - USECS_PER_DAY else timestamp_val)).
Proof.
  intros jdn Hj. unfold to_ethiopian_datetime, dateadt_to_gregorian.
  set (date_val := timestamp_date timestamp_val) in *.
  assert (Ej : Int.add date_val POSTGRES_EPOCH_JDATE = jdn).
  { subst jdn. unfold POSTGRES_EPOCH_JDATE, ETHIOPIAN_EPOCH in *.
    int_ideal. reflexivity. }
  rewrite Ej. cbv zeta.
  assert (Hg : -32044 <= jdn <= 536838867)
    by (unfold ETHIOPIAN_EPOCH in Hj; lia).
  pose proof (jdn_gregorian_round_trip jdn Hg) as Hgr.
  destruct (jdn_to_gregorian jdn) as [[gy gm] gd]. rewrite Hgr.
  assert (He : ETHIOPIAN_EPOCH <= jdn <= 2000000000) by lia.
  destruct (jdn_to_ethiopian jdn) as [[ey em] ed] eqn:Eeth.
  rewrite (jdn_ethiopian_round_trip_cases jdn ey em ed He Eeth).
  set (jdn' := if (jdn - ETHIOPIAN_EPOCH) mod 1461 =? 1460
               then jdn - 1 else jdn).
  assert (Hg' : -32044 <= jdn' <= 536838867)
    by (subst jdn'; unfold ETHIOPIAN_EPOCH in Hj;
        destruct (_ =? 1460); lia).
  pose proof (jdn_gregorian_round_trip jdn' Hg') as Hgr'.
  destruct (jdn_to_gregorian jdn') as [[gy' gm'] gd'].
  unfold gregorian_to_dateadt. rewrite Hgr'.
  assert (Ed : Int.sub jdn' POSTGRES_EPOCH_JDATE = jdn' - 2451545).
  { unfold POSTGRES_EPOCH_JDATE. int_ideal. reflexivity. }
  rewrite Ed, wrap64_day_shift. do 2 f_equal.
  subst jdn' jdn. unfold POSTGRES_EPOCH_JDATE.
  destruct (_ =? 1460); ring.
Qed.

Lemma to_ethiopian_datetime_result_witness :
  to_ethiopian_datetime 86400000000 (fun t => t / 86400000000)
    (Some 526780800000001)
  = Some (Int64.wrap
            (if (526780800000001 / 86400000000 + POSTGRES_EPOCH_JDATE
                 - ETHIOPIAN_EPOCH) mod 1461 =? 1460
             then 526780800000001 - 86400000000 else 526780800000001)).
Proof.
  apply (to_ethiopian_datetime_result
           86400000000 (fun t => t / 86400000000) 526780800000001).
  vm_compute. split; discriminate.
Defined.

(** ** Dates before the Ethiopian epoch *)

(** X16. For a JDN before the epoch, [jdn_to_ethiopian] returns a year
    of at most 1, a month from -11 to 1 and a day from -28 to 1, never
    month 13; the checks of [from_ethiopian_date] accept the result only
    when it is day 1 of month 1. *)
Theorem jdn_to_ethiopian_before_epoch (jdn y m d : Z) :
  -2000000000 <= jdn < ETHIOPIAN_EPOCH ->
  jdn_to_ethiopian jdn = (y, m, d) ->
  y <= 1 /\ -11 <= m <= 1 /\ -28 <= d <= 1 /\
  (validate_fields y m d = None -> m = 1 /\ d = 1).
Proof.
  intros Hr E.
  unfold jdn_to_ethiopian, eth_year_and_doy, eth_month_day_raw in E.
  assert (En : Int.sub jdn ETHIOPIAN_EPOCH = jdn - 1724221)
    by (unfold ETHIOPIAN_EPOCH in *; int_ideal; reflexivity).
  rewrite En in E. clear En. unfold ETHIOPIAN_EPOCH in Hr.
  set (n := jdn - 1724221) in *.
  assert (Hn : -2001724221 <= n < 0) by (subst n; lia).
  clearbody n. unfold Int.div, Int.rem in E.
  set (era := n ÷ 1461) in *. set (r := Z.rem n 1461) in *.
  set (yoe := r ÷ 365) in *. set (doy := Z.rem r 365) in *.
  assert (H : -1370112 <= era <= 0 /\ -4 <= yoe <= 0 /\ -364 <= doy <= 0)
    by (subst era yoe doy r; Z.to_euclidean_division_equations; lia).
  clearbody era yoe doy. clear r.
  assert (E4 : (yoe =? 4) = false) by (apply Z.eqb_neq; lia).
  assert (L : (doy <? 360) = true) by (apply Z.ltb_lt; lia).
  rewrite E4, L in E.
  assert (Ey : Int.add (Int.add (Int.mul 4 era) yoe) 1 = (4 * era + yoe + 1)%Z)
    by (int_ideal; reflexivity).
  set (mq := doy ÷ 30) in *. set (dr := Z.rem doy 30) in *.
  assert (Hmd : -12 <= mq <= 0 /\ -29 <= dr <= 0)
    by (subst mq dr; Z.to_euclidean_division_equations; lia).
  clearbody mq dr.
  assert (Em : Int.add mq 1 = (mq + 1)%Z) by (int_ideal; reflexivity).
  assert (Ed : Int.add dr 1 = (dr + 1)%Z) by (int_ideal; reflexivity).
  rewrite Ey, Em, Ed in E.
  apply date_eq in E. destruct E as (<- & <- & <-).
  split; [lia|]. split; [lia|]. split; [lia|]. intros Hv.
  assert (Hc : ~ (mq + 1 < 1 \/ 13 < mq + 1 \/ dr + 1 < 1 \/
                  (mq + 1 <= 12 /\ 30 < dr + 1) \/
                  (mq + 1 = 13 /\
                   (if Int.rem (4 * era + yoe + 1)%Z 4 =? 3 then 6 else 5)
                   < dr + 1)))
    by (intros C; apply validate_fields_iff in C; contradiction).
  lia.
Qed.

Lemma jdn_to_ethiopian_before_epoch_witness :
  1 <= 1 /\ -11 <= 1 <= 1 /\ -28 <= 0 <= 1 /\
  (validate_fields 1 1 0 = None -> 1 = 1 /\ 0 = 1).
Proof.
  apply (jdn_to_ethiopian_before_epoch 1724220 1 1 0).
  - unfold ETHIOPIAN_EPOCH. lia.
  - reflexivity.
Defined.

(** ** Checks over a finite range *)

Lemma all_below_spec (n : nat) (p : Z -> bool) :
  all_below n p = true -> forall z, 0 <= z < Z.of_nat n -> p z = true.
Proof.
  induction n as [|k IH]; intros H z Hz.
  - cbn in Hz. lia.
  - cbn [all_below] in H. apply andb_prop in H. destruct H as [Hk Hrest].
    destruct (Z.eq_dec z (Z.of_nat k)) as [->|Hne]; [exact Hk|].
    apply IH; [exact Hrest|lia].
Qed.

Lemma date_eqb_eq (a b : date) : date_eqb a b = true -> a = b.
Proof.
  destruct a as [[y1 m1] d1], b as [[y2 m2] d2]. unfold date_eqb.
  intros H. bool_hyps. congruence.
Qed.

(** ** The Ethiopian new year *)

(** X17. For the Ethiopian years 1893 to 2092, day 1 of month 1 is, by
    [ethiopian_to_jdn] and [jdn_to_gregorian], 11 September of the
    Gregorian year 7 years later, and [gregorian_to_jdn] and
    [jdn_to_ethiopian] take that 11 September back to day 1 of month 1:
    in the Gregorian years 1900 to 2099 the new year never falls on
    another day. *)
Theorem ethiopian_new_year_11_september (y : Z) :
  1893 <= y <= 2092 ->
  jdn_to_gregorian (ethiopian_to_jdn y 1 1) = (y + 7, 9, 11) /\
  jdn_to_ethiopian (gregorian_to_jdn (y + 7) 9 11) = (y, 1, 1).
Proof.
  intros Hy.
  assert (H : all_below 200
                (fun z =>
                   date_eqb (jdn_to_gregorian (ethiopian_to_jdn (1893 + z) 1 1))
                            (1893 + z + 7, 9, 11) &&
                   date_eqb (jdn_to_ethiopian
                               (gregorian_to_jdn (1893 + z + 7) 9 11))
                            (1893 + z, 1, 1)) = true)
    by (vm_compute; reflexivity).
  pose proof (all_below_spec _ _ H (y - 1893)) as Hz.
  cbv beta in Hz. replace (1893 + (y - 1893)) with y in Hz by lia.
  assert (Hb : 0 <= y - 1893 < Z.of_nat 200) by lia.
  apply Hz in Hb. apply andb_prop in Hb. destruct Hb as [H1 H2].
  split; apply date_eqb_eq; assumption.
Qed.

Lemma ethiopian_new_year_11_september_witness :
  jdn_to_gregorian (ethiopian_to_jdn 2008 1 1) = (2008 + 7, 9, 11) /\
  jdn_to_ethiopian (gregorian_to_jdn (2008 + 7) 9 11) = (2008, 1, 1).
Proof. apply (ethiopian_new_year_11_september 2008). lia. Defined.

(** ** The text of a date *)

Lemma string_of_length_2 (s : string) :
  String.length s = 2%nat ->
  exists a b, s = String a (String b EmptyString).
Proof.
  destruct s as [|a [|b [|c s]]]; cbn; intros H; try discriminate.
  exists a, b. reflexivity.
Qed.

Lemma string_of_length_4 (s : string) :
  String.length s = 4%nat ->
  exists a b c d, s = String a (String b (String c (String d EmptyString))).
Proof.
  destruct s as [|a [|b [|c [|d [|e s]]]]]; cbn; intros H; try discriminate.
  exists a, b, c, d. reflexivity.
Qed.

Lemma printf_04d_length (n : Z) :
  0 <= n <= 9999 -> String.length (printf_0d 4 n) = 4%nat.
Proof.
  intros Hn.
  assert (H : all_below (Z.to_nat 10000)
                (fun z => Nat.eqb (String.length (printf_0d 4 z)) 4) = true)
    by (vm_compute; reflexivity).
  apply Nat.eqb_eq. apply (all_below_spec _ _ H).
  rewrite Z2Nat.id; lia.
Qed.

Lemma printf_02d_length (n : Z) :
  0 <= n <= 99 -> String.length (printf_0d 2 n) = 2%nat.
Proof.
  intros Hn.
  assert (H : all_below 100
                (fun z => Nat.eqb (String.length (printf_0d 2 z)) 2) = true)
    by (vm_compute; reflexivity).
  apply Nat.eqb_eq. apply (all_below_spec _ _ H). lia.
Qed.

Lemma snprintf_date_shape (y m d : Z) :
  0 <= y <= 9999 -> 0 <= m <= 99 -> 0 <= d <= 99 ->
  String.length (snprintf_date y m d) = 10%nat /\
  String.get 4 (snprintf_date y m d) = Some "-"%char /\
  String.get 7 (snprintf_date y m d) = Some "-"%char.
Proof.
  intros Hy Hm Hd. unfold snprintf_date.
  destruct (string_of_length_4 _ (printf_04d_length y Hy))
    as (y1 & y2 & y3 & y4 & ->).
  destruct (string_of_length_2 _ (printf_02d_length m Hm)) as (m1 & m2 & ->).
  destruct (string_of_length_2 _ (printf_02d_length d Hd)) as (d1 & d2 & ->).
  repeat split.
Qed.

(** X14. For every timestamp whose date falls in the Ethiopian years 1
    to 9999 (JDN from the epoch to 5376354), [to_ethiopian_date] returns
    a text of exactly 10 characters with a hyphen after the 4 characters
    of the year and after the 2 characters of the month: nothing is cut
    off by the 32-byte buffer. *)
Theorem to_ethiopian_date_ten_characters
    (timestamp_date : Z -> Z) (timestamp_val : Z) :
  ETHIOPIAN_EPOCH <= timestamp_date timestamp_val + POSTGRES_EPOCH_JDATE
    <= 5376354 ->
  exists text,
    to_ethiopian_date timestamp_date (Some timestamp_val) = Some text /\
    String.length text = 10%nat /\
    String.get 4 text = Some "-"%char /\
    String.get 7 text = Some "-"%char.
Proof.
  intros Hj. unfold to_ethiopian_date, dateadt_to_gregorian.
  set (date_val := timestamp_date timestamp_val) in *.
  assert (Ej : Int.add date_val POSTGRES_EPOCH_JDATE
               = date_val + POSTGRES_EPOCH_JDATE).
  { unfold POSTGRES_EPOCH_JDATE, ETHIOPIAN_EPOCH in *. int_ideal. reflexivity. }
  rewrite Ej. set (jdn := date_val + POSTGRES_EPOCH_JDATE) in *. cbv zeta.
  assert (Hg : -32044 <= jdn <= 536838867)
    by (unfold ETHIOPIAN_EPOCH in Hj; lia).
  pose proof (jdn_gregorian_round_trip jdn Hg) as Hgr.
  destruct (jdn_to_gregorian jdn) as [[gy gm] gd]. rewrite Hgr.
  assert (Hr : ETHIOPIAN_EPOCH <= jdn <= Int.INT_MAX)
    by (unfold Int.INT_MAX; lia).
  destruct (jdn_cycle_position jdn Hr) as (q & r & Eq & Hq & Hr' & _).
  destruct (jdn_to_ethiopian jdn) as [[y m] d] eqn:E.
  rewrite Eq, jdn_to_ethiopian_cycle in E by assumption.
  assert (H : 0 <= y <= 9999 /\ 0 <= m <= 99 /\ 0 <= d <= 99).
  { unfold ETHIOPIAN_EPOCH in *.
    destruct (Z.eqb_spec r 1460); [apply date_eq in E; lia|].
    destruct (Z.ltb_spec (r mod 365) 360); apply date_eq in E;
      Z.div_mod_to_equations; lia. }
  destruct H as (Hy & Hm & Hd).
  exists (snprintf_date y m d). split; [reflexivity|].
  apply snprintf_date_shape; assumption.
Qed.

Lemma to_ethiopian_date_ten_characters_witness :
  exists text,
    to_ethiopian_date (fun t => t / 86400000000) (Some 526780800000001)
    = Some text /\
    String.length text = 10%nat /\
    String.get 4 text = Some "-"%char /\
    String.get 7 text = Some "-"%char.
Proof.
  apply (to_ethiopian_date_ten_characters
           (fun t => t / 86400000000) 526780800000001).
  vm_compute. split; discriminate.
Defined.

(** ** The Gregorian calendar day by day *)

Lemma gregorian_leap_cases (y : Z) :
  if gregorian_leap y
  then y mod 4 = 0 /\ (y mod 100 <> 0 \/ y mod 400 = 0)
  else y mod 4 <> 0 \/ (y mod 100 = 0 /\ y mod 400 <> 0).
Proof.
  unfold gregorian_leap.
  destruct (Z.eqb_spec (y mod 4) 0), (Z.eqb_spec (y mod 100) 0),
    (Z.eqb_spec (y mod 400) 0); cbn; lia.
Qed.

Lemma floor_gregorian_next_day (y m d : Z) :
  valid_gregorian y m d = true ->
  let '(y', m', d') := gregorian_next_day y m d in
  valid_gregorian y' m' d' = true /\
  Floor.gregorian_to_jdn y' m' d' = Floor.gregorian_to_jdn y m d + 1.
Proof.
  unfold valid_gregorian. intros Hv. bool_hyps.
  assert (Hm : m = 1 \/ m = 2 \/ m = 3 \/ m = 4 \/ m = 5 \/ m = 6 \/ m = 7 \/
               m = 8 \/ m = 9 \/ m = 10 \/ m = 11 \/ m = 12) by lia.
  pose proof (gregorian_leap_cases y) as Hl.
  unfold gregorian_next_day, valid_gregorian, gregorian_month_length in *.
  destruct (gregorian_leap y) eqn:El;
    (repeat (destruct Hm as [Hm|Hm]; [subst m|]); [..|subst m]);
    repeat match goal with
           | |- context [Z.pos ?p + 1] =>
             let v := eval vm_compute in (Z.pos p + 1) in
             change (Z.pos p + 1) with v
           end;
    cbn [Z.eqb Pos.eqb orb Z.ltb Z.compare Pos.compare Pos.compare_cont] in *;
    match goal with |- context [d <? ?L] => destruct (Z.ltb_spec d L) end;
    cbv beta iota;
    cbn [Z.eqb Pos.eqb orb Z.ltb Z.compare Pos.compare Pos.compare_cont];
    rewrite ?El;
    (split;
     [repeat (apply andb_true_intro; split); apply Z.leb_le; lia
     |unfold Floor.gregorian_to_jdn; Z.div_mod_to_equations; lia]).
Qed.

(** X18. On the valid Gregorian dates from 1 March -4800 to the end of
    year 1465100, the day after a date (the next day of the month, or
    day 1 of the next month after the last day of a month, 29 February
    existing in leap years only, or 1 January of the next year after 31
    December) is a valid date, and [gregorian_to_jdn] gives it the JDN
    of the date plus 1. *)
Theorem gregorian_to_jdn_next_day (y m d y' m' d' : Z) :
  valid_gregorian y m d = true ->
  -4800 < y \/ (y = -4800 /\ 3 <= m) -> y <= 1465100 ->
  gregorian_next_day y m d = (y', m', d') ->
  valid_gregorian y' m' d' = true /\
  gregorian_to_jdn y' m' d' = gregorian_to_jdn y m d + 1.
Proof.
  intros Hv Hlo Hhi En.
  pose proof (floor_gregorian_next_day y m d Hv) as Hf. rewrite En in Hf.
  destruct Hf as [Hv' Hf]. split; [exact Hv'|].
  assert (Hy' : (y' = y /\ m <= m') \/ y' = y + 1).
  { unfold gregorian_next_day in En.
    destruct (d <? _); [apply date_eq in En; lia|].
    destruct (m <? 12); apply date_eq in En; lia. }
  destruct (gregorian_to_jdn_bounds y m d Hv Hlo) as [-> _]; [lia|].
  destruct (gregorian_to_jdn_bounds y' m' d' Hv') as [-> _]; [lia|lia|].
  exact Hf.
Qed.

Lemma gregorian_to_jdn_next_day_witness :
  valid_gregorian 2100 3 1 = true /\
  gregorian_to_jdn 2100 3 1 = gregorian_to_jdn 2100 2 28 + 1.
Proof.
  apply (gregorian_to_jdn_next_day 2100 2 28 2100 3 1).
  - reflexivity.
  - lia.
  - lia.
  - reflexivity.
Defined.

(** X19. From JDN -32044 to 536838866, the date [jdn_to_gregorian]
    returns for the next JDN is the day after the date it returns for
    the JDN: it walks through the proleptic Gregorian calendar day by
    day, with its month lengths and leap years. *)
Theorem jdn_to_gregorian_next_day (jdn y m d : Z) :
  -32044 <= jdn < 536838867 ->
  jdn_to_gregorian jdn = (y, m, d) ->
  jdn_to_gregorian (jdn + 1) = gregorian_next_day y m d.
Proof.
  intros Hr E.
  rewrite jdn_to_gregorian_floor in E by lia.
  rewrite jdn_to_gregorian_floor by lia.
  pose proof (floor_jdn_to_gregorian_valid jdn (proj1 Hr)) as Hv.
  pose proof (floor_jdn_round_trip jdn (proj1 Hr)) as Hb.
  rewrite E in Hv, Hb. destruct Hb as (Hj & _).
  pose proof (floor_gregorian_next_day y m d Hv) as Hn.
  destruct (gregorian_next_day y m d) as [[y' m'] d'].
  destruct Hn as [Hv' Hn]. rewrite Hj in Hn. rewrite <- Hn.
  apply floor_gregorian_round_trip, Hv'.
Qed.

Lemma jdn_to_gregorian_next_day_witness :
  jdn_to_gregorian (2451544 + 1) = gregorian_next_day 1999 12 31.
Proof.
  apply (jdn_to_gregorian_next_day 2451544 1999 12 31).
  - lia.
  - reflexivity.
Defined.
